(** * scrcpy icon loader (app/src/icon.c)

    A shallow embedding of [icon.c]: the icon path resolution, the single
    image decode through libavformat/libavcodec, the mapping of the decoded
    pixel format to an SDL pixel format, the construction of the SDL surface
    over the decoded frame, and the destruction of that surface.

    The functions of [icon.c] are written in a small trace monad: every call
    that leaves the file (libav, SDL, libc, the logger) is recorded, in
    program order, together with what it returned.  What those calls return
    is read from an oracle, one field per call, so that a theorem quantified
    over oracles covers every behaviour of the libraries.  The cleanup labels
    of [decode_image] ([close_codec], [free_codec_ctx], [close_input],
    [free_ctx]) are functions that fall through to the next label. *)

From Stdlib Require Import ZArith List String Bool Lia.
Import ListNotations.
Local Open Scope string_scope.
Local Open Scope list_scope.
Local Open Scope Z_scope.

Set Implicit Arguments.

(** ** Data *)

(** [enum AVPixelFormat] (libavutil/pixfmt.h).  The twelve enumerators named
    in [to_sdl_pixel_format] are constructors; every other value that the
    [int] field [frame->format] can hold is [AV_PIX_FMT_other n], [n] being
    its number (which differs from the numbers of the twelve). *)
Inductive AVPixelFormat : Type :=
| AV_PIX_FMT_RGB24
| AV_PIX_FMT_BGR24
| AV_PIX_FMT_ARGB
| AV_PIX_FMT_RGBA
| AV_PIX_FMT_ABGR
| AV_PIX_FMT_BGRA
| AV_PIX_FMT_RGB565BE
| AV_PIX_FMT_RGB555BE
| AV_PIX_FMT_BGR565BE
| AV_PIX_FMT_BGR555BE
| AV_PIX_FMT_RGB444BE
| AV_PIX_FMT_BGR444BE
| AV_PIX_FMT_other (n : Z).

(** [SDL_PixelFormatEnum] (SDL_pixels.h), restricted to the values that
    [to_sdl_pixel_format] returns. *)
Inductive SDL_PixelFormatEnum : Type :=
| SDL_PIXELFORMAT_UNKNOWN
| SDL_PIXELFORMAT_RGB24
| SDL_PIXELFORMAT_BGR24
| SDL_PIXELFORMAT_ARGB32
| SDL_PIXELFORMAT_RGBA32
| SDL_PIXELFORMAT_ABGR32
| SDL_PIXELFORMAT_BGRA32
| SDL_PIXELFORMAT_RGB565
| SDL_PIXELFORMAT_RGB555
| SDL_PIXELFORMAT_BGR565
| SDL_PIXELFORMAT_BGR555
| SDL_PIXELFORMAT_RGB444
| SDL_PIXELFORMAT_BGR444.

Definition SDL_PixelFormatEnum_eqb (a b : SDL_PixelFormatEnum) : bool :=
  match a, b with
  | SDL_PIXELFORMAT_UNKNOWN, SDL_PIXELFORMAT_UNKNOWN
  | SDL_PIXELFORMAT_RGB24, SDL_PIXELFORMAT_RGB24
  | SDL_PIXELFORMAT_BGR24, SDL_PIXELFORMAT_BGR24
  | SDL_PIXELFORMAT_ARGB32, SDL_PIXELFORMAT_ARGB32
  | SDL_PIXELFORMAT_RGBA32, SDL_PIXELFORMAT_RGBA32
  | SDL_PIXELFORMAT_ABGR32, SDL_PIXELFORMAT_ABGR32
  | SDL_PIXELFORMAT_BGRA32, SDL_PIXELFORMAT_BGRA32
  | SDL_PIXELFORMAT_RGB565, SDL_PIXELFORMAT_RGB565
  | SDL_PIXELFORMAT_RGB555, SDL_PIXELFORMAT_RGB555
  | SDL_PIXELFORMAT_BGR565, SDL_PIXELFORMAT_BGR565
  | SDL_PIXELFORMAT_BGR555, SDL_PIXELFORMAT_BGR555
  | SDL_PIXELFORMAT_RGB444, SDL_PIXELFORMAT_RGB444
  | SDL_PIXELFORMAT_BGR444, SDL_PIXELFORMAT_BGR444 => true
  | _, _ => false
  end.

(** The fields of [AVPixFmtDescriptor] that [icon.c] reads. *)
Record AVPixFmtDescriptor : Type := {
  desc_name : string;
  desc_flags : Z
}.

(** Flag masks of libavutil/pixdesc.h. *)
Definition AV_PIX_FMT_FLAG_PLANAR : Z := Z.shiftl 1 4.
Definition AV_PIX_FMT_FLAG_RGB : Z := Z.shiftl 1 5.

(** The fields of [AVFrame] that [icon.c] reads; [frame_data0] is the
    address [frame->data[0]], [frame_linesize0] is [frame->linesize[0]]. *)
Record AVFrame : Type := {
  frame_format : AVPixelFormat;
  frame_width : Z;
  frame_height : Z;
  frame_data0 : Z;
  frame_linesize0 : Z
}.

(** The fields of [SDL_Surface] that the loader sets. *)
Record SDL_Surface : Type := {
  surf_pixels : Z;
  surf_w : Z;
  surf_h : Z;
  surf_depth : Z;
  surf_pitch : Z;
  surf_format : SDL_PixelFormatEnum;
  surf_userdata : option AVFrame
}.

(** Structures that [icon.c] only holds pointers to. *)
Inductive AVFormatContext : Type := the_format_context.
Inductive AVCodecContext : Type := the_codec_context.
Inductive AVCodec : Type := the_codec.
Inductive AVPacket : Type := the_packet.

(** A pointer is [None] (NULL) or [Some] object. *)
Definition is_nonnull {A : Type} (p : option A) : bool :=
  match p with Some _ => true | None => false end.

(** ** Calls leaving the file *)

Inductive event : Type :=
| E_getenv (name : string) (found : bool)
| E_wgetenv (name : string) (found : bool)
| E_strdup (s : string) (ok : bool)
| E_utf8_from_wide_char (s : string) (ok : bool)
| E_get_local_file_path (name : string) (ok : bool)
| E_free (nonnull : bool)
| E_avformat_alloc_context (ok : bool)
| E_avformat_open_input (nonnull : bool) (path : string) (ret : Z)
| E_avformat_find_stream_info (ret : Z)
| E_av_find_best_stream (ret : Z)
| E_avcodec_find_decoder (found : bool)
| E_avcodec_alloc_context3 (ok : bool)
| E_avcodec_parameters_to_context (ret : Z)
| E_avcodec_open2 (ret : Z)
| E_av_frame_alloc (ok : bool)
| E_av_packet_alloc (ok : bool)
| E_av_read_frame (ret : Z)
| E_avcodec_send_packet (ret : Z)
| E_avcodec_receive_frame (ret : Z)
| E_av_packet_free (nonnull : bool)
| E_av_frame_free (nonnull : bool)
| E_avcodec_close
| E_avcodec_free_context (nonnull : bool)
| E_avformat_close_input (nonnull : bool)
| E_avformat_free_context (nonnull : bool)
| E_av_pix_fmt_desc_get (fmt : AVPixelFormat) (found : bool)
| E_av_get_bits_per_pixel (ret : Z)
| E_SDL_CreateRGBSurfaceWithFormatFrom (ok : bool)
| E_SDL_FreeSurface
| E_LOGE (msg : string)
| E_LOGD (msg : string)
| E_assert_failed.

Definition trace : Type := list event.

(** ** The trace monad *)

Definition IO (A : Type) : Type := (A * trace)%type.

Definition ret {A : Type} (a : A) : IO A := (a, []).

Definition bind {A B : Type} (m : IO A) (k : A -> IO B) : IO B :=
  let (a, t1) := m in
  let (b, t2) := k a in
  (b, t1 ++ t2).

Definition emit (e : event) : IO unit := (tt, [e]).

Declare Scope io_scope.
Delimit Scope io_scope with io.
Notation "x <- c ;; k" := (bind c (fun x => k))
  (at level 61, c at next level, right associativity) : io_scope.
Notation "' pat <- c ;; k" := (bind c (fun x => match x with pat => k end))
  (at level 61, pat pattern, c at next level, right associativity) : io_scope.
Notation "c ;;; k" := (bind c (fun _ => k))
  (at level 61, right associativity) : io_scope.
Local Open Scope io_scope.

Definition result {A : Type} (m : IO A) : A := fst m.
Definition calls {A : Type} (m : IO A) : trace := snd m.

(** ** Oracles *)

(** Compile-time configuration: the macros [__WINDOWS__], [PORTABLE] and
    [PREFIX] of config.h, and [NDEBUG], which turns the [assert] of
    <assert.h> into nothing. *)
Record config : Type := {
  WINDOWS : bool;
  PORTABLE : bool;
  PREFIX : string;
  NDEBUG : bool
}.

(** What libavformat and libavcodec answer while one file is decoded.  Each
    of these functions is called at most once by [decode_image], so one
    answer per function describes a run.  [o_decoded] is what
    [avcodec_receive_frame] writes into the frame when it returns 0. *)
Record decoder_oracle : Type := {
  o_avformat_alloc_context : bool;
  o_avformat_open_input : Z;
  o_avformat_find_stream_info : Z;
  o_av_find_best_stream : Z;
  o_avcodec_find_decoder : bool;
  o_avcodec_alloc_context3 : bool;
  o_avcodec_parameters_to_context : Z;
  o_avcodec_open2 : Z;
  o_av_frame_alloc : bool;
  o_av_packet_alloc : bool;
  o_av_read_frame : Z;
  o_avcodec_send_packet : Z;
  o_avcodec_receive_frame : Z;
  o_decoded : AVFrame
}.

(** The rest of the process environment. *)
Record world : Type := {
  w_config : config;
  w_getenv : string -> option string;
  w_alloc_string : bool;
  w_get_local_file_path : string -> option string;
  w_file : string -> decoder_oracle;
  w_av_pix_fmt_desc_get : AVPixelFormat -> option AVPixFmtDescriptor;
  w_av_get_bits_per_pixel : AVPixFmtDescriptor -> Z;
  w_SDL_CreateRGBSurfaceWithFormatFrom : bool
}.

(** ** The library calls

    One wrapper per external function: it records the call and returns what
    the oracle says.  Functions of libav that take the address of a pointer
    ([av_frame_free(&frame)] and the like) set that pointer to NULL; the
    wrapper returns the new value of the pointer.  [avformat_open_input]
    frees a caller-supplied context when it fails and sets the pointer to
    NULL, and [avformat_close_input] frees the context it closes. *)

Definition LOGE (msg : string) : IO unit := emit (E_LOGE msg).
Definition LOGD (msg : string) : IO unit := emit (E_LOGD msg).

Definition getenv (w : world) (name : string) : IO (option string) :=
  let r := w_getenv w name in
  emit (if WINDOWS (w_config w) then E_wgetenv name (is_nonnull r)
        else E_getenv name (is_nonnull r)) ;;;
  ret r.

(** [strdup], or [utf8_from_wide_char] under [__WINDOWS__]: a fresh copy of
    the string, or NULL when the allocation fails. *)
Definition strdup (w : world) (s : string) : IO (option string) :=
  let ok := w_alloc_string w in
  emit (if WINDOWS (w_config w) then E_utf8_from_wide_char s ok
        else E_strdup s ok) ;;;
  ret (if ok then Some s else None).

(** [strdup] of a string literal, outside the [__WINDOWS__] conditional. *)
Definition strdup_literal (w : world) (s : string) : IO (option string) :=
  let ok := w_alloc_string w in
  emit (E_strdup s ok) ;;;
  ret (if ok then Some s else None).

Definition get_local_file_path (w : world) (name : string)
  : IO (option string) :=
  let r := w_get_local_file_path w name in
  emit (E_get_local_file_path name (is_nonnull r)) ;;;
  ret r.

Definition free (p : option string) : IO unit :=
  emit (E_free (is_nonnull p)).

Definition avformat_alloc_context (o : decoder_oracle)
  : IO (option AVFormatContext) :=
  let ok := o_avformat_alloc_context o in
  emit (E_avformat_alloc_context ok) ;;;
  ret (if ok then Some the_format_context else None).

Definition avformat_open_input (o : decoder_oracle)
    (ctx : option AVFormatContext) (path : string)
  : IO (Z * option AVFormatContext) :=
  let r := o_avformat_open_input o in
  emit (E_avformat_open_input (is_nonnull ctx) path r) ;;;
  ret (r, if r <? 0 then None else ctx).

Definition avformat_find_stream_info (o : decoder_oracle) : IO Z :=
  let r := o_avformat_find_stream_info o in
  emit (E_avformat_find_stream_info r) ;;; ret r.

Definition av_find_best_stream (o : decoder_oracle) : IO Z :=
  let r := o_av_find_best_stream o in
  emit (E_av_find_best_stream r) ;;; ret r.

Definition avcodec_find_decoder (o : decoder_oracle) : IO (option AVCodec) :=
  let found := o_avcodec_find_decoder o in
  emit (E_avcodec_find_decoder found) ;;;
  ret (if found then Some the_codec else None).

Definition avcodec_alloc_context3 (o : decoder_oracle)
  : IO (option AVCodecContext) :=
  let ok := o_avcodec_alloc_context3 o in
  emit (E_avcodec_alloc_context3 ok) ;;;
  ret (if ok then Some the_codec_context else None).

Definition avcodec_parameters_to_context (o : decoder_oracle) : IO Z :=
  let r := o_avcodec_parameters_to_context o in
  emit (E_avcodec_parameters_to_context r) ;;; ret r.

Definition avcodec_open2 (o : decoder_oracle) : IO Z :=
  let r := o_avcodec_open2 o in
  emit (E_avcodec_open2 r) ;;; ret r.

(** A frame as [av_frame_alloc] leaves it: no format ([AV_PIX_FMT_NONE],
    which is -1), no size, no data. *)
Definition blank_frame : AVFrame :=
  {| frame_format := AV_PIX_FMT_other (-1); frame_width := 0;
     frame_height := 0; frame_data0 := 0; frame_linesize0 := 0 |}.

Definition av_frame_alloc (o : decoder_oracle) : IO (option AVFrame) :=
  let ok := o_av_frame_alloc o in
  emit (E_av_frame_alloc ok) ;;;
  ret (if ok then Some blank_frame else None).

Definition av_packet_alloc (o : decoder_oracle) : IO (option AVPacket) :=
  let ok := o_av_packet_alloc o in
  emit (E_av_packet_alloc ok) ;;;
  ret (if ok then Some the_packet else None).

Definition av_read_frame (o : decoder_oracle) : IO Z :=
  let r := o_av_read_frame o in
  emit (E_av_read_frame r) ;;; ret r.

Definition avcodec_send_packet (o : decoder_oracle) : IO Z :=
  let r := o_avcodec_send_packet o in
  emit (E_avcodec_send_packet r) ;;; ret r.

(** Returns the status and the frame as the decoder left it: filled when the
    status is 0, untouched otherwise. *)
Definition avcodec_receive_frame (o : decoder_oracle) (frame : AVFrame)
  : IO (Z * AVFrame) :=
  let r := o_avcodec_receive_frame o in
  emit (E_avcodec_receive_frame r) ;;;
  ret (r, if r =? 0 then o_decoded o else frame).

Definition av_packet_free (packet : option AVPacket)
  : IO (option AVPacket) :=
  emit (E_av_packet_free (is_nonnull packet)) ;;; ret None.

Definition av_frame_free (frame : option AVFrame) : IO (option AVFrame) :=
  emit (E_av_frame_free (is_nonnull frame)) ;;; ret None.

Definition avcodec_close (codec_ctx : option AVCodecContext) : IO unit :=
  emit E_avcodec_close.

Definition avcodec_free_context (codec_ctx : option AVCodecContext)
  : IO (option AVCodecContext) :=
  emit (E_avcodec_free_context (is_nonnull codec_ctx)) ;;; ret None.

Definition avformat_close_input (ctx : option AVFormatContext)
  : IO (option AVFormatContext) :=
  emit (E_avformat_close_input (is_nonnull ctx)) ;;; ret None.

Definition avformat_free_context (ctx : option AVFormatContext) : IO unit :=
  emit (E_avformat_free_context (is_nonnull ctx)).

Definition av_pix_fmt_desc_get (w : world) (fmt : AVPixelFormat)
  : IO (option AVPixFmtDescriptor) :=
  let r := w_av_pix_fmt_desc_get w fmt in
  emit (E_av_pix_fmt_desc_get fmt (is_nonnull r)) ;;; ret r.

Definition av_get_bits_per_pixel (w : world) (desc : AVPixFmtDescriptor)
  : IO Z :=
  let r := w_av_get_bits_per_pixel w desc in
  emit (E_av_get_bits_per_pixel r) ;;; ret r.

(** On success the surface describes the caller's pixels with the given
    geometry and format; its [userdata] is NULL. *)
Definition SDL_CreateRGBSurfaceWithFormatFrom (w : world)
    (pixels width height depth pitch : Z) (format : SDL_PixelFormatEnum)
  : IO (option SDL_Surface) :=
  let ok := w_SDL_CreateRGBSurfaceWithFormatFrom w in
  emit (E_SDL_CreateRGBSurfaceWithFormatFrom ok) ;;;
  ret (if ok
       then Some {| surf_pixels := pixels; surf_w := width;
                    surf_h := height; surf_depth := depth;
                    surf_pitch := pitch; surf_format := format;
                    surf_userdata := None |}
       else None).

Definition SDL_FreeSurface (icon : SDL_Surface) : IO unit :=
  emit E_SDL_FreeSurface.

(** [surface->userdata = frame] *)
Definition set_userdata (s : SDL_Surface) (frame : option AVFrame)
  : SDL_Surface :=
  {| surf_pixels := surf_pixels s; surf_w := surf_w s; surf_h := surf_h s;
     surf_depth := surf_depth s; surf_pitch := surf_pitch s;
     surf_format := surf_format s; surf_userdata := frame |}.

(** ** icon.c *)

Definition SCRCPY_PORTABLE_ICON_FILENAME : string := "icon.png".
Definition SCRCPY_DEFAULT_ICON_PATH (c : config) : string :=
  (PREFIX c ++ "/share/icons/hicolor/256x256/apps/scrcpy.png")%string.

Definition get_icon_path (w : world) : IO (option string) :=
  icon_path_env <- getenv w "SCRCPY_ICON_PATH" ;;
  match icon_path_env with
  | Some env_value =>
      (* if the envvar is set, use it *)
      icon_path <- strdup w env_value ;;
      match icon_path with
      | None => LOGE "Could not allocate memory" ;;; ret None
      | Some p => LOGD "Using SCRCPY_ICON_PATH: %s" ;;; ret (Some p)
      end
  | None =>
      if PORTABLE (w_config w) then
        icon_path <- get_local_file_path w SCRCPY_PORTABLE_ICON_FILENAME ;;
        match icon_path with
        | None => LOGE "Could not get icon path" ;;; ret None
        | Some p => LOGD "Using icon (portable): %s" ;;; ret (Some p)
        end
      else
        LOGD ("Using icon: " ++ SCRCPY_DEFAULT_ICON_PATH (w_config w))%string ;;;
        icon_path <- strdup_literal w (SCRCPY_DEFAULT_ICON_PATH (w_config w)) ;;
        match icon_path with
        | None => LOGE "Could not allocate memory" ;;; ret None
        | Some p => ret (Some p)
        end
  end.

(** The cleanup labels of [decode_image], each falling through to the next;
    [res] is the value of the local [result] when the label is reached. *)
Definition free_ctx (ctx : option AVFormatContext) (res : option AVFrame)
  : IO (option AVFrame) :=
  avformat_free_context ctx ;;;
  ret res.

Definition close_input (ctx : option AVFormatContext) (res : option AVFrame)
  : IO (option AVFrame) :=
  ctx <- avformat_close_input ctx ;;
  free_ctx ctx res.

Definition free_codec_ctx (codec_ctx : option AVCodecContext)
    (ctx : option AVFormatContext) (res : option AVFrame)
  : IO (option AVFrame) :=
  _ <- avcodec_free_context codec_ctx ;;
  close_input ctx res.

Definition close_codec (codec_ctx : option AVCodecContext)
    (ctx : option AVFormatContext) (res : option AVFrame)
  : IO (option AVFrame) :=
  avcodec_close codec_ctx ;;;
  free_codec_ctx codec_ctx ctx res.

Definition decode_image (o : decoder_oracle) (path : string)
  : IO (option AVFrame) :=
  let result : option AVFrame := None in
  ctx <- avformat_alloc_context o ;;
  match ctx with
  | None => LOGE "Could not allocate image decoder context" ;;; ret None
  | Some _ =>
  ' (r, ctx) <- avformat_open_input o ctx path ;;
  if r <? 0 then
    LOGE "Could not open image codec: %s" ;;; free_ctx ctx result
  else
  r <- avformat_find_stream_info o ;;
  if r <? 0 then
    LOGE "Could not find image stream info" ;;; close_input ctx result
  else
  stream <- av_find_best_stream o ;;
  if stream <? 0 then
    LOGE "Could not find best image stream" ;;; close_input ctx result
  else
  codec <- avcodec_find_decoder o ;;
  match codec with
  | None => LOGE "Could not find image decoder" ;;; close_input ctx result
  | Some _ =>
  codec_ctx <- avcodec_alloc_context3 o ;;
  match codec_ctx with
  | None => LOGE "Could not allocate codec context" ;;; close_input ctx result
  | Some _ =>
  r <- avcodec_parameters_to_context o ;;
  if r <? 0 then
    LOGE "Could not fill codec context" ;;;
    free_codec_ctx codec_ctx ctx result
  else
  r <- avcodec_open2 o ;;
  if r <? 0 then
    LOGE "Could not open image codec" ;;;
    free_codec_ctx codec_ctx ctx result
  else
  frame <- av_frame_alloc o ;;
  match frame with
  | None => LOGE "Could not allocate frame" ;;; close_codec codec_ctx ctx result
  | Some frame_obj =>
  packet <- av_packet_alloc o ;;
  match packet with
  | None =>
      LOGE "Could not allocate packet" ;;;
      _ <- av_frame_free frame ;;
      close_codec codec_ctx ctx result
  | Some _ =>
  r <- av_read_frame o ;;
  if r <? 0 then
    LOGE "Could not read frame" ;;;
    _ <- av_packet_free packet ;;
    _ <- av_frame_free frame ;;
    close_codec codec_ctx ctx result
  else
  r <- avcodec_send_packet o ;;
  if r <? 0 then
    LOGE "Could not send icon packet: %d" ;;;
    _ <- av_packet_free packet ;;
    _ <- av_frame_free frame ;;
    close_codec codec_ctx ctx result
  else
  ' (r, frame_obj) <- avcodec_receive_frame o frame_obj ;;
  if negb (r =? 0) then
    LOGE "Could not receive icon frame: %d" ;;;
    _ <- av_packet_free packet ;;
    _ <- av_frame_free frame ;;
    close_codec codec_ctx ctx result
  else
  _ <- av_packet_free packet ;;
  let result := Some frame_obj in
  close_codec codec_ctx ctx result
  end end end end end.

Definition to_sdl_pixel_format (fmt : AVPixelFormat) : SDL_PixelFormatEnum :=
  match fmt with
  | AV_PIX_FMT_RGB24 => SDL_PIXELFORMAT_RGB24
  | AV_PIX_FMT_BGR24 => SDL_PIXELFORMAT_BGR24
  | AV_PIX_FMT_ARGB => SDL_PIXELFORMAT_ARGB32
  | AV_PIX_FMT_RGBA => SDL_PIXELFORMAT_RGBA32
  | AV_PIX_FMT_ABGR => SDL_PIXELFORMAT_ABGR32
  | AV_PIX_FMT_BGRA => SDL_PIXELFORMAT_BGRA32
  | AV_PIX_FMT_RGB565BE => SDL_PIXELFORMAT_RGB565
  | AV_PIX_FMT_RGB555BE => SDL_PIXELFORMAT_RGB555
  | AV_PIX_FMT_BGR565BE => SDL_PIXELFORMAT_BGR565
  | AV_PIX_FMT_BGR555BE => SDL_PIXELFORMAT_BGR555
  | AV_PIX_FMT_RGB444BE => SDL_PIXELFORMAT_RGB444
  | AV_PIX_FMT_BGR444BE => SDL_PIXELFORMAT_BGR444
  | AV_PIX_FMT_other _ => SDL_PIXELFORMAT_UNKNOWN
  end.

(** [desc->flags & AV_PIX_FMT_FLAG_RGB && !(desc->flags & AV_PIX_FMT_FLAG_PLANAR)] *)
Definition is_packed_rgb (desc : AVPixFmtDescriptor) : bool :=
  negb (Z.land (desc_flags desc) AV_PIX_FMT_FLAG_RGB =? 0)
  && (Z.land (desc_flags desc) AV_PIX_FMT_FLAG_PLANAR =? 0).

(** The [error] label of [load_from_path]. *)
Definition load_error (frame : option AVFrame) : IO (option SDL_Surface) :=
  _ <- av_frame_free frame ;;
  ret None.

Definition load_from_path (w : world) (path : string)
  : IO (option SDL_Surface) :=
  frame <- decode_image (w_file w path) path ;;
  match frame with
  | None => ret None
  | Some f =>
  desc <- av_pix_fmt_desc_get w (frame_format f) ;;
  match desc with
  | None => LOGE "Could not get icon format descriptor" ;;; load_error frame
  | Some d =>
  if negb (is_packed_rgb d) then
    LOGE "Could not load non-RGB icon" ;;; load_error frame
  else
  let format := to_sdl_pixel_format (frame_format f) in
  if SDL_PixelFormatEnum_eqb format SDL_PIXELFORMAT_UNKNOWN then
    LOGE "Unsupported icon pixel format: %s (%d)" ;;; load_error frame
  else
  bits_per_pixel <- av_get_bits_per_pixel w d ;;
  surface <- SDL_CreateRGBSurfaceWithFormatFrom w
               (frame_data0 f) (frame_width f) (frame_height f)
               bits_per_pixel (frame_linesize0 f) format ;;
  match surface with
  | None => LOGE "Could not create icon surface" ;;; load_error frame
  | Some s =>
      (* frame owns the data *)
      ret (Some (set_userdata s frame))
  end end end.

Definition scrcpy_icon_load (w : world) : IO (option SDL_Surface) :=
  icon_path <- get_icon_path w ;;
  match icon_path with
  | None => ret None
  | Some p =>
      icon <- load_from_path w p ;;
      free icon_path ;;;
      ret icon
  end.

(** How a call ends: by returning, or in [abort()] from a failed [assert]. *)
Inductive ending : Type := Returned | Aborted.

(** [assert(cond)] lets the program go on when [NDEBUG] is defined (the
    macro expands to nothing) or when the condition holds. *)
Definition assert_passes (c : config) (cond : bool) : bool :=
  NDEBUG c || cond.

Definition scrcpy_icon_destroy (c : config) (icon : SDL_Surface)
  : IO ending :=
  let frame := surf_userdata icon in
  if assert_passes c (is_nonnull frame) then
    _ <- av_frame_free frame ;;
    SDL_FreeSurface icon ;;;
    ret Returned
  else
    emit E_assert_failed ;;; ret Aborted.

(** ** Resources

    What the recorded calls acquire and release, after the documentation of
    libav, SDL and libc.  An opened input and an opened codec are resources
    of their own, next to the context that holds them. *)

Inductive resource : Type :=
| R_path_string        (* the heap copy of the icon path *)
| R_format_context     (* AVFormatContext: the container handle *)
| R_input              (* the input opened in the container handle *)
| R_codec_context      (* AVCodecContext: the decoder context *)
| R_codec              (* the codec opened in the decoder context *)
| R_frame              (* AVFrame and its pixel buffers *)
| R_packet             (* AVPacket and its data *)
| R_surface.           (* SDL_Surface *)

Definition resource_eqb (a b : resource) : bool :=
  match a, b with
  | R_path_string, R_path_string
  | R_format_context, R_format_context
  | R_input, R_input
  | R_codec_context, R_codec_context
  | R_codec, R_codec
  | R_frame, R_frame
  | R_packet, R_packet
  | R_surface, R_surface => true
  | _, _ => false
  end.

Definition when (b : bool) (r : resource) : list resource :=
  if b then [r] else [].

Definition acquired (e : event) : list resource :=
  match e with
  | E_strdup _ ok => when ok R_path_string
  | E_utf8_from_wide_char _ ok => when ok R_path_string
  | E_get_local_file_path _ ok => when ok R_path_string
  | E_avformat_alloc_context ok => when ok R_format_context
  | E_avformat_open_input nonnull _ r => when (nonnull && negb (r <? 0)) R_input
  | E_avcodec_alloc_context3 ok => when ok R_codec_context
  | E_avcodec_open2 r => when (negb (r <? 0)) R_codec
  | E_av_frame_alloc ok => when ok R_frame
  | E_av_packet_alloc ok => when ok R_packet
  | E_SDL_CreateRGBSurfaceWithFormatFrom ok => when ok R_surface
  | _ => []
  end.

Definition released (e : event) : list resource :=
  match e with
  | E_free nonnull => when nonnull R_path_string
  | E_avformat_open_input nonnull _ r => when (nonnull && (r <? 0)) R_format_context
  | E_av_packet_free nonnull => when nonnull R_packet
  | E_av_frame_free nonnull => when nonnull R_frame
  | E_avcodec_close => [R_codec]
  | E_avcodec_free_context nonnull => when nonnull R_codec_context
  | E_avformat_close_input nonnull =>
      if nonnull then [R_input; R_format_context] else []
  | E_avformat_free_context nonnull => when nonnull R_format_context
  | E_SDL_FreeSurface => [R_surface]
  | _ => []
  end.

Definition acquisitions (t : trace) : list resource := flat_map acquired t.
Definition releases (t : trace) : list resource := flat_map released t.

(** Removes one occurrence of [r]; [None] when there is none (a release of
    something that is not held). *)
Fixpoint take_out (r : resource) (held : list resource)
  : option (list resource) :=
  match held with
  | [] => None
  | x :: rest =>
      if resource_eqb r x then Some rest
      else match take_out r rest with
           | Some rest' => Some (x :: rest')
           | None => None
           end
  end.

Fixpoint take_out_all (rs held : list resource) : option (list resource) :=
  match rs with
  | [] => Some held
  | r :: rs' =>
      match take_out r held with
      | Some held' => take_out_all rs' held'
      | None => None
      end
  end.

(** The resources held after the calls of [t], starting from [held], most
    recent first; [None] when [t] releases something that is not held. *)
Fixpoint held_after (t : trace) (held : list resource)
  : option (list resource) :=
  match t with
  | [] => Some held
  | e :: t' =>
      match take_out_all (released e) held with
      | Some held' => held_after t' (rev (acquired e) ++ held')
      | None => None
      end
  end.

Definition count_of (r : resource) (rs : list resource) : nat :=
  List.length (filter (resource_eqb r) rs).

Definition count_acquired (r : resource) (t : trace) : nat :=
  count_of r (acquisitions t).
Definition count_released (r : resource) (t : trace) : nat :=
  count_of r (releases t).

(** ** Sample environments *)

(** A 256x256 packed RGBA picture, four bytes per pixel. *)
Definition rgba_frame : AVFrame :=
  {| frame_format := AV_PIX_FMT_RGBA; frame_width := 256;
     frame_height := 256; frame_data0 := 4096; frame_linesize0 := 1024 |}.

(** Every call succeeds and the decoder delivers [frame]. *)
Definition decoding (frame : AVFrame) : decoder_oracle :=
  {| o_avformat_alloc_context := true;
     o_avformat_open_input := 0;
     o_avformat_find_stream_info := 0;
     o_av_find_best_stream := 0;
     o_avcodec_find_decoder := true;
     o_avcodec_alloc_context3 := true;
     o_avcodec_parameters_to_context := 0;
     o_avcodec_open2 := 0;
     o_av_frame_alloc := true;
     o_av_packet_alloc := true;
     o_av_read_frame := 0;
     o_avcodec_send_packet := 0;
     o_avcodec_receive_frame := 0;
     o_decoded := frame |}.

(** As [o], with other statuses for the submit and the request steps. *)
Definition with_statuses (o : decoder_oracle) (send receive : Z)
  : decoder_oracle :=
  {| o_avformat_alloc_context := o_avformat_alloc_context o;
     o_avformat_open_input := o_avformat_open_input o;
     o_avformat_find_stream_info := o_avformat_find_stream_info o;
     o_av_find_best_stream := o_av_find_best_stream o;
     o_avcodec_find_decoder := o_avcodec_find_decoder o;
     o_avcodec_alloc_context3 := o_avcodec_alloc_context3 o;
     o_avcodec_parameters_to_context := o_avcodec_parameters_to_context o;
     o_avcodec_open2 := o_avcodec_open2 o;
     o_av_frame_alloc := o_av_frame_alloc o;
     o_av_packet_alloc := o_av_packet_alloc o;
     o_av_read_frame := o_av_read_frame o;
     o_avcodec_send_packet := send;
     o_avcodec_receive_frame := receive;
     o_decoded := o_decoded o |}.

(** Descriptors: packed RGB with alpha (flags RGB and ALPHA, bit 7), and a
    planar YUV layout (flag PLANAR only). *)
Definition rgba_desc : AVPixFmtDescriptor :=
  {| desc_name := "rgba";
     desc_flags := Z.lor AV_PIX_FMT_FLAG_RGB (Z.shiftl 1 7) |}.
Definition yuv420p_desc : AVPixFmtDescriptor :=
  {| desc_name := "yuv420p"; desc_flags := AV_PIX_FMT_FLAG_PLANAR |}.

Definition unix_build : config :=
  {| WINDOWS := false; PORTABLE := false; PREFIX := "/usr/local";
     NDEBUG := false |}.

(** The same build with assertions compiled out. *)
Definition release_build : config :=
  {| WINDOWS := false; PORTABLE := false; PREFIX := "/usr/local";
     NDEBUG := true |}.

(** A surface that no frame is attached to. *)
Definition bare_surface : SDL_Surface :=
  {| surf_pixels := 4096; surf_w := 256; surf_h := 256; surf_depth := 32;
     surf_pitch := 1024; surf_format := SDL_PIXELFORMAT_RGBA32;
     surf_userdata := None |}.

(** An installed build without [SCRCPY_ICON_PATH]; every file decodes to
    [frame], whose format has the descriptor [desc] (when given), and the
    surface is created when [sdl_ok]. *)
Definition sample_world (frame : AVFrame) (desc : option AVPixFmtDescriptor)
    (sdl_ok : bool) : world :=
  {| w_config := unix_build;
     w_getenv := fun _ => None;
     w_alloc_string := true;
     w_get_local_file_path := fun _ => None;
     w_file := fun _ => decoding frame;
     w_av_pix_fmt_desc_get := fun _ => desc;
     w_av_get_bits_per_pixel := fun _ => 32;
     w_SDL_CreateRGBSurfaceWithFormatFrom := sdl_ok |}.

Definition installed_icon : string :=
  "/usr/local/share/icons/hicolor/256x256/apps/scrcpy.png".

(** ** Vocabulary of the statements *)

Definition is_send_packet (e : event) : bool :=
  match e with E_avcodec_send_packet _ => true | _ => false end.


(** The calls made after the first call selected by [which]. *)
Fixpoint calls_after (which : event -> bool) (t : trace) : trace :=
  match t with
  | [] => []
  | e :: t' => if which e then t' else calls_after which t'
  end.

Definition ends_with (t suffix : trace) : Prop :=
  exists before, t = before ++ suffix.

(** The order in which [decode_image] acquires. *)
Definition acquisition_order : list resource :=
  [R_format_context; R_input; R_codec_context; R_codec; R_frame; R_packet].

(** The calls from the label [close_codec] to the end of [decode_image]. *)
Definition teardown : trace :=
  [E_avcodec_close; E_avcodec_free_context true;
   E_avformat_close_input true; E_avformat_free_context false].

(** A format is in the mapping table when the switch has a case for it. *)
Definition mapped (fmt : AVPixelFormat) : bool :=
  negb (SDL_PixelFormatEnum_eqb (to_sdl_pixel_format fmt)
          SDL_PIXELFORMAT_UNKNOWN).

(** The flags of a descriptor, bit by bit: PLANAR is bit 4, RGB is bit 5. *)
Definition has_planar_flag (d : AVPixFmtDescriptor) : bool :=
  Z.testbit (desc_flags d) 4.
Definition has_rgb_flag (d : AVPixFmtDescriptor) : bool :=
  Z.testbit (desc_flags d) 5.

(** The three ways in which the format of a decoded frame [f] is refused. *)
Definition no_descriptor (w : world) (f : AVFrame) : Prop :=
  w_av_pix_fmt_desc_get w (frame_format f) = None.

Definition unsupported_layout (w : world) (f : AVFrame) : Prop :=
  exists d, w_av_pix_fmt_desc_get w (frame_format f) = Some d
            /\ (has_rgb_flag d = false \/ has_planar_flag d = true).

Definition unmapped_format (w : world) (f : AVFrame) : Prop :=
  exists d, w_av_pix_fmt_desc_get w (frame_format f) = Some d
            /\ has_rgb_flag d = true /\ has_planar_flag d = false
            /\ mapped (frame_format f) = false.

(** The surface that [load_from_path] builds over the frame [f]. *)
Definition surface_over (w : world) (f : AVFrame) (d : AVPixFmtDescriptor)
  : SDL_Surface :=
  {| surf_pixels := frame_data0 f; surf_w := frame_width f;
     surf_h := frame_height f; surf_depth := w_av_get_bits_per_pixel w d;
     surf_pitch := frame_linesize0 f;
     surf_format := to_sdl_pixel_format (frame_format f);
     surf_userdata := Some f |}.

(** What [load_from_path] does with a decoded frame [f]: the five ways
    through the code after [decode_image] returned, each with the value
    returned and the calls made. *)
Inductive surface_stage (w : world) (f : AVFrame)
  : option SDL_Surface -> trace -> Prop :=
| stage_no_descriptor :
    w_av_pix_fmt_desc_get w (frame_format f) = None ->
    surface_stage w f None
      [E_av_pix_fmt_desc_get (frame_format f) false;
       E_LOGE "Could not get icon format descriptor";
       E_av_frame_free true]
| stage_not_packed_rgb (d : AVPixFmtDescriptor) :
    w_av_pix_fmt_desc_get w (frame_format f) = Some d ->
    is_packed_rgb d = false ->
    surface_stage w f None
      [E_av_pix_fmt_desc_get (frame_format f) true;
       E_LOGE "Could not load non-RGB icon";
       E_av_frame_free true]
| stage_unmapped (d : AVPixFmtDescriptor) :
    w_av_pix_fmt_desc_get w (frame_format f) = Some d ->
    is_packed_rgb d = true ->
    mapped (frame_format f) = false ->
    surface_stage w f None
      [E_av_pix_fmt_desc_get (frame_format f) true;
       E_LOGE "Unsupported icon pixel format: %s (%d)";
       E_av_frame_free true]
| stage_no_surface (d : AVPixFmtDescriptor) :
    w_av_pix_fmt_desc_get w (frame_format f) = Some d ->
    is_packed_rgb d = true ->
    mapped (frame_format f) = true ->
    w_SDL_CreateRGBSurfaceWithFormatFrom w = false ->
    surface_stage w f None
      [E_av_pix_fmt_desc_get (frame_format f) true;
       E_av_get_bits_per_pixel (w_av_get_bits_per_pixel w d);
       E_SDL_CreateRGBSurfaceWithFormatFrom false;
       E_LOGE "Could not create icon surface";
       E_av_frame_free true]
| stage_surface (d : AVPixFmtDescriptor) :
    w_av_pix_fmt_desc_get w (frame_format f) = Some d ->
    is_packed_rgb d = true ->
    mapped (frame_format f) = true ->
    w_SDL_CreateRGBSurfaceWithFormatFrom w = true ->
    surface_stage w f (Some (surface_over w f d))
      [E_av_pix_fmt_desc_get (frame_format f) true;
       E_av_get_bits_per_pixel (w_av_get_bits_per_pixel w d);
       E_SDL_CreateRGBSurfaceWithFormatFrom true].

(** The messages logged with [LOGE], in order. *)
Definition errors (t : trace) : list string :=
  flat_map (fun e => match e with E_LOGE msg => [msg] | _ => [] end) t.

(** The function (or macro) that a recorded call went to. *)
Definition call_name (e : event) : string :=
  match e with
  | E_getenv _ _ => "getenv"
  | E_wgetenv _ _ => "_wgetenv"
  | E_strdup _ _ => "strdup"
  | E_utf8_from_wide_char _ _ => "utf8_from_wide_char"
  | E_get_local_file_path _ _ => "get_local_file_path"
  | E_free _ => "free"
  | E_avformat_alloc_context _ => "avformat_alloc_context"
  | E_avformat_open_input _ _ _ => "avformat_open_input"
  | E_avformat_find_stream_info _ => "avformat_find_stream_info"
  | E_av_find_best_stream _ => "av_find_best_stream"
  | E_avcodec_find_decoder _ => "avcodec_find_decoder"
  | E_avcodec_alloc_context3 _ => "avcodec_alloc_context3"
  | E_avcodec_parameters_to_context _ => "avcodec_parameters_to_context"
  | E_avcodec_open2 _ => "avcodec_open2"
  | E_av_frame_alloc _ => "av_frame_alloc"
  | E_av_packet_alloc _ => "av_packet_alloc"
  | E_av_read_frame _ => "av_read_frame"
  | E_avcodec_send_packet _ => "avcodec_send_packet"
  | E_avcodec_receive_frame _ => "avcodec_receive_frame"
  | E_av_packet_free _ => "av_packet_free"
  | E_av_frame_free _ => "av_frame_free"
  | E_avcodec_close => "avcodec_close"
  | E_avcodec_free_context _ => "avcodec_free_context"
  | E_avformat_close_input _ => "avformat_close_input"
  | E_avformat_free_context _ => "avformat_free_context"
  | E_av_pix_fmt_desc_get _ _ => "av_pix_fmt_desc_get"
  | E_av_get_bits_per_pixel _ => "av_get_bits_per_pixel"
  | E_SDL_CreateRGBSurfaceWithFormatFrom _ =>
      "SDL_CreateRGBSurfaceWithFormatFrom"
  | E_SDL_FreeSurface => "SDL_FreeSurface"
  | E_LOGE _ => "LOGE"
  | E_LOGD _ => "LOGD"
  | E_assert_failed => "assert"
  end.

(** Every step of [decode_image] went well under the oracle [o]. *)
Definition all_steps_succeed (o : decoder_oracle) : Prop :=
  o_avformat_alloc_context o = true
  /\ 0 <= o_avformat_open_input o
  /\ 0 <= o_avformat_find_stream_info o
  /\ 0 <= o_av_find_best_stream o
  /\ o_avcodec_find_decoder o = true
  /\ o_avcodec_alloc_context3 o = true
  /\ 0 <= o_avcodec_parameters_to_context o
  /\ 0 <= o_avcodec_open2 o
  /\ o_av_frame_alloc o = true
  /\ o_av_packet_alloc o = true
  /\ 0 <= o_av_read_frame o
  /\ 0 <= o_avcodec_send_packet o
  /\ o_avcodec_receive_frame o = 0.

(** [d] with one more flag bit set. *)
Definition with_flag (d : AVPixFmtDescriptor) (bit : Z) : AVPixFmtDescriptor :=
  {| desc_name := desc_name d;
     desc_flags := Z.lor (desc_flags d) (Z.shiftl 1 bit) |}.

(** ** Runs on the sample environments *)

Example decode_image_ok :
  decode_image (decoding rgba_frame) installed_icon
  = (Some rgba_frame,
     [E_avformat_alloc_context true;
      E_avformat_open_input true installed_icon 0;
      E_avformat_find_stream_info 0;
      E_av_find_best_stream 0;
      E_avcodec_find_decoder true;
      E_avcodec_alloc_context3 true;
      E_avcodec_parameters_to_context 0;
      E_avcodec_open2 0;
      E_av_frame_alloc true;
      E_av_packet_alloc true;
      E_av_read_frame 0;
      E_avcodec_send_packet 0;
      E_avcodec_receive_frame 0;
      E_av_packet_free true;
      E_avcodec_close;
      E_avcodec_free_context true;
      E_avformat_close_input true;
      E_avformat_free_context false]).
Proof. reflexivity. Qed.

Example scrcpy_icon_load_ok :
  result (scrcpy_icon_load (sample_world rgba_frame (Some rgba_desc) true))
  = Some {| surf_pixels := 4096; surf_w := 256; surf_h := 256;
            surf_depth := 32; surf_pitch := 1024;
            surf_format := SDL_PIXELFORMAT_RGBA32;
            surf_userdata := Some rgba_frame |}.
Proof. reflexivity. Qed.

Example scrcpy_icon_load_ok_held :
  held_after (calls (scrcpy_icon_load
                       (sample_world rgba_frame (Some rgba_desc) true))) []
  = Some [R_surface; R_frame].
Proof. reflexivity. Qed.

Example scrcpy_icon_load_planar :
  let run := scrcpy_icon_load (sample_world rgba_frame (Some yuv420p_desc) true)
  in result run = None /\ held_after (calls run) [] = Some [].
Proof. split; reflexivity. Qed.

(** ** Traces and held resources *)

Lemma acquisitions_app (t1 t2 : trace) :
  acquisitions (t1 ++ t2) = acquisitions t1 ++ acquisitions t2.
Proof. unfold acquisitions. apply flat_map_app. Qed.

Lemma releases_app (t1 t2 : trace) :
  releases (t1 ++ t2) = releases t1 ++ releases t2.
Proof. unfold releases. apply flat_map_app. Qed.

Lemma count_of_app (r : resource) (l1 l2 : list resource) :
  count_of r (l1 ++ l2) = (count_of r l1 + count_of r l2)%nat.
Proof. unfold count_of. now rewrite filter_app, length_app. Qed.

Lemma count_acquired_app (r : resource) (t1 t2 : trace) :
  count_acquired r (t1 ++ t2)
  = (count_acquired r t1 + count_acquired r t2)%nat.
Proof. unfold count_acquired. now rewrite acquisitions_app, count_of_app. Qed.

Lemma count_released_app (r : resource) (t1 t2 : trace) :
  count_released r (t1 ++ t2)
  = (count_released r t1 + count_released r t2)%nat.
Proof. unfold count_released. now rewrite releases_app, count_of_app. Qed.

Lemma take_out_frame (r : resource) (held held' extra : list resource) :
  take_out r held = Some held' ->
  take_out r (held ++ extra) = Some (held' ++ extra).
Proof.
  revert held'. induction held as [|x rest IH]; intros held' H; simpl in *.
  - discriminate.
  - destruct (resource_eqb r x).
    + now inversion H.
    + destruct (take_out r rest) as [rest'|] eqn:E; [|discriminate].
      inversion H; subst. now rewrite (IH rest' eq_refl).
Qed.

Lemma take_out_all_frame (rs held held' extra : list resource) :
  take_out_all rs held = Some held' ->
  take_out_all rs (held ++ extra) = Some (held' ++ extra).
Proof.
  revert held. induction rs as [|r rs IH]; intros held H; simpl in *.
  - now inversion H.
  - destruct (take_out r held) as [h1|] eqn:E; [|discriminate].
    rewrite (take_out_frame _ _ extra E). now apply IH.
Qed.

(** Resources held before a run stay held, untouched, under those of the
    run. *)
Lemma held_after_frame (t : trace) (held held' extra : list resource) :
  held_after t held = Some held' ->
  held_after t (held ++ extra) = Some (held' ++ extra).
Proof.
  revert held. induction t as [|e t IH]; intros held H; simpl in *.
  - now inversion H.
  - destruct (take_out_all (released e) held) as [h1|] eqn:E; [|discriminate].
    rewrite (take_out_all_frame _ _ extra E).
    rewrite app_assoc. now apply IH.
Qed.

Lemma held_after_app (t1 t2 : trace) (held : list resource) :
  held_after (t1 ++ t2) held
  = match held_after t1 held with
    | Some held' => held_after t2 held'
    | None => None
    end.
Proof.
  revert held. induction t1 as [|e t1 IH]; intros held; simpl.
  - reflexivity.
  - destruct (take_out_all (released e) held); [apply IH | reflexivity].
Qed.

(** ** The flag test of [load_from_path] *)

Lemma land_bit (a n : Z) :
  0 <= n -> (Z.land a (Z.shiftl 1 n) =? 0) = negb (Z.testbit a n).
Proof.
  intros Hn.
  assert (E : Z.land a (Z.shiftl 1 n) = Z.shiftl (Z.b2z (Z.testbit a n)) n).
  { apply Z.bits_inj'. intros m Hm.
    rewrite Z.land_spec, !Z.shiftl_spec by assumption.
    destruct (Z.eq_dec m n) as [->|Hne].
    - rewrite Z.sub_diag. rewrite Z.b2z_bit0.
      change (Z.testbit 1 0) with true. now rewrite andb_true_r.
    - destruct (Z.ltb_spec m n).
      + rewrite (Z.testbit_neg_r 1 (m - n)) by lia.
        rewrite (Z.testbit_neg_r _ (m - n)) by lia. now rewrite andb_false_r.
      + replace (Z.testbit 1 (m - n)) with false.
        * rewrite andb_false_r. symmetry.
          destruct (Z.testbit a n); simpl.
          -- change 1 with (2 ^ 0). apply Z.pow2_bits_false. lia.
          -- apply Z.bits_0.
        * symmetry. change 1 with (2 ^ 0). apply Z.pow2_bits_false. lia. }
  rewrite E. destruct (Z.testbit a n); simpl.
  - rewrite Z.shiftl_mul_pow2 by assumption.
    apply Z.eqb_neq. pose proof (Z.pow_pos_nonneg 2 n). lia.
  - now rewrite Z.shiftl_0_l.
Qed.

Lemma is_packed_rgb_flags (d : AVPixFmtDescriptor) :
  is_packed_rgb d = has_rgb_flag d && negb (has_planar_flag d).
Proof.
  unfold is_packed_rgb, has_rgb_flag, has_planar_flag,
    AV_PIX_FMT_FLAG_RGB, AV_PIX_FMT_FLAG_PLANAR.
  rewrite !land_bit by lia. now rewrite negb_involutive.
Qed.

Lemma mapped_spec (fmt : AVPixelFormat) :
  mapped fmt = true <-> to_sdl_pixel_format fmt <> SDL_PIXELFORMAT_UNKNOWN.
Proof.
  unfold mapped. destruct fmt; simpl; split; intros H;
    try reflexivity; try discriminate; now try contradiction H.
Qed.

(** ** Case analysis of the runs *)

#[local] Arguments is_packed_rgb : simpl never.
#[local] Arguments to_sdl_pixel_format : simpl never.
#[local] Arguments decode_image : simpl never.
#[local] Arguments get_icon_path : simpl never.
#[local] Arguments load_from_path : simpl never.

(** Splits on the answers of the oracle, in program order. *)
Ltac split_oracle :=
  repeat match goal with
  | H : (?z <? 0) = _ |- context [?z <? 0] => rewrite H; cbn
  | H : (?z =? 0) = _ |- context [?z =? 0] => rewrite H; cbn
  | |- context [if ?b then _ else _] => is_var b; destruct b; cbn
  | |- context [?z <? 0] => is_var z; destruct (z <? 0) eqn:?; cbn
  | |- context [?z =? 0] => is_var z; destruct (z =? 0) eqn:?; cbn
  end.

Ltac run_decode o :=
  destruct o; unfold decode_image, result, calls, when; cbn;
  split_oracle.

(** Splits a run of [load_from_path] after a decode that delivered [f]. *)
Ltac split_load w f :=
  unfold av_pix_fmt_desc_get; cbn;
  destruct (w_av_pix_fmt_desc_get w (frame_format f)) as [?d|] eqn:?Hdesc; cbn;
  [ destruct (is_packed_rgb d) eqn:?Hpacked; cbn;
    [ destruct (SDL_PixelFormatEnum_eqb
                  (to_sdl_pixel_format (frame_format f))
                  SDL_PIXELFORMAT_UNKNOWN) eqn:?Hfmt; cbn;
      [ | destruct (w_SDL_CreateRGBSurfaceWithFormatFrom w) eqn:?Hsdl; cbn ]
    | ]
  | ].

Ltac run_get_icon_path w :=
  unfold get_icon_path, getenv, strdup, strdup_literal, get_local_file_path,
    result, calls; cbn;
  destruct (w_getenv w "SCRCPY_ICON_PATH") as [?v|] eqn:?Henv; cbn;
  destruct (WINDOWS (w_config w)) eqn:?Hwin; cbn;
  destruct (PORTABLE (w_config w)) eqn:?Hportable; cbn;
  destruct (w_alloc_string w) eqn:?Halloc; cbn;
  try (destruct (w_get_local_file_path w SCRCPY_PORTABLE_ICON_FILENAME)
         as [?l|] eqn:?Hlocal; cbn).

(** ** decode_image *)

Lemma decode_image_held (o : decoder_oracle) (path : string) :
  held_after (calls (decode_image o path)) []
  = Some (match result (decode_image o path) with
          | Some _ => [R_frame]
          | None => []
          end).
Proof. run_decode o; reflexivity. Qed.

Lemma decode_image_acquisition_order (o : decoder_oracle) (path : string) :
  exists n, acquisitions (calls (decode_image o path))
            = firstn n acquisition_order.
Proof.
  run_decode o;
    first [ now exists 0%nat | now exists 1%nat | now exists 2%nat
          | now exists 3%nat | now exists 4%nat | now exists 5%nat
          | now exists 6%nat ].
Qed.

Lemma decode_image_failure_reverse (o : decoder_oracle) (path : string) :
  result (decode_image o path) = None ->
  releases (calls (decode_image o path))
  = rev (acquisitions (calls (decode_image o path))).
Proof. run_decode o; intros H; try discriminate H; reflexivity. Qed.

Lemma decode_image_success_trace (o : decoder_oracle) (path : string)
    (f : AVFrame) :
  result (decode_image o path) = Some f ->
  f = o_decoded o /\
  acquisitions (calls (decode_image o path)) = acquisition_order /\
  releases (calls (decode_image o path))
  = [R_packet; R_codec; R_codec_context; R_input; R_format_context].
Proof.
  run_decode o; intros H; try discriminate H.
  inversion H. repeat split.
Qed.

Lemma decode_image_no_path_string (o : decoder_oracle) (path : string) :
  count_acquired R_path_string (calls (decode_image o path)) = 0%nat /\
  count_released R_path_string (calls (decode_image o path)) = 0%nat /\
  count_acquired R_surface (calls (decode_image o path)) = 0%nat /\
  ~ In E_assert_failed (calls (decode_image o path)).
Proof.
  run_decode o; repeat split; try reflexivity;
    simpl; intuition discriminate.
Qed.

(** ** get_icon_path *)

Lemma get_icon_path_held (w : world) :
  held_after (calls (get_icon_path w)) []
  = Some (match result (get_icon_path w) with
          | Some _ => [R_path_string]
          | None => []
          end).
Proof. run_get_icon_path w; reflexivity. Qed.

Lemma get_icon_path_counts (w : world) :
  count_acquired R_path_string (calls (get_icon_path w))
  = (if is_nonnull (result (get_icon_path w)) then 1 else 0)%nat /\
  count_released R_path_string (calls (get_icon_path w)) = 0%nat /\
  count_acquired R_surface (calls (get_icon_path w)) = 0%nat /\
  ~ In E_assert_failed (calls (get_icon_path w)).
Proof.
  run_get_icon_path w; repeat split; try reflexivity;
    simpl; intuition discriminate.
Qed.

Lemma result_pair (A : Type) (a : A) (t : trace) : result (a, t) = a.
Proof. reflexivity. Qed.

Lemma calls_pair (A : Type) (a : A) (t : trace) : calls (a, t) = t.
Proof. reflexivity. Qed.

(** ** load_from_path *)

Lemma load_from_path_decode_failed (w : world) (p : string) :
  result (decode_image (w_file w p) p) = None ->
  load_from_path w p = (None, calls (decode_image (w_file w p) p)).
Proof.
  unfold load_from_path, bind, result, calls.
  destruct (decode_image (w_file w p) p) as [[f|] td]; simpl; intros H.
  - discriminate H.
  - now rewrite app_nil_r.
Qed.

Lemma load_from_path_stage (w : world) (p : string) (f : AVFrame) :
  result (decode_image (w_file w p) p) = Some f ->
  exists r t,
    load_from_path w p = (r, calls (decode_image (w_file w p) p) ++ t)
    /\ surface_stage w f r t.
Proof.
  unfold load_from_path, bind, result, calls.
  destruct (decode_image (w_file w p) p) as [[f'|] td]; simpl; intros H;
    [|discriminate H].
  inversion H; subst f'; clear H.
  split_load w f; eexists; eexists; (split; [reflexivity|]);
    first [ apply stage_no_descriptor; assumption
          | eapply stage_not_packed_rgb; eassumption
          | eapply stage_unmapped;
            [eassumption | assumption | unfold mapped; now rewrite Hfmt]
          | eapply stage_no_surface;
            [eassumption | assumption | unfold mapped; now rewrite Hfmt
            | assumption]
          | eapply stage_surface;
            [eassumption | assumption | unfold mapped; now rewrite Hfmt
            | assumption] ].
Qed.

Lemma surface_stage_held (w : world) (f : AVFrame)
    (r : option SDL_Surface) (t : trace) :
  surface_stage w f r t ->
  held_after t [R_frame]
  = Some (match r with Some _ => [R_surface; R_frame] | None => [] end)
  /\ acquisitions t = (if is_nonnull r then [R_surface] else [])
  /\ releases t = (if is_nonnull r then [] else [R_frame])
  /\ ~ In E_assert_failed t.
Proof.
  intros H; destruct H; repeat split; try reflexivity;
    simpl; intuition discriminate.
Qed.

Lemma load_from_path_held (w : world) (p : string) :
  held_after (calls (load_from_path w p)) []
  = Some (match result (load_from_path w p) with
          | Some _ => [R_surface; R_frame]
          | None => []
          end).
Proof.
  pose proof (decode_image_held (w_file w p) p) as Hd.
  destruct (result (decode_image (w_file w p) p)) as [f|] eqn:E.
  - destruct (load_from_path_stage w p E) as (r & t & Hrun & Hstage).
    rewrite Hrun, result_pair, calls_pair.
    rewrite held_after_app, Hd.
    now apply surface_stage_held in Hstage.
  - rewrite (load_from_path_decode_failed w p E), result_pair, calls_pair.
    exact Hd.
Qed.

Lemma load_from_path_counts (w : world) (p : string) :
  count_acquired R_path_string (calls (load_from_path w p)) = 0%nat /\
  count_released R_path_string (calls (load_from_path w p)) = 0%nat /\
  count_acquired R_surface (calls (load_from_path w p))
  = (if is_nonnull (result (load_from_path w p)) then 1 else 0)%nat /\
  ~ In E_assert_failed (calls (load_from_path w p)).
Proof.
  destruct (decode_image_no_path_string (w_file w p) p)
    as (Ha & Hr & Hs & Hassert).
  destruct (result (decode_image (w_file w p) p)) as [f|] eqn:E.
  - destruct (load_from_path_stage w p E) as (r & t & Hrun & Hstage).
    rewrite Hrun, result_pair, calls_pair.
    rewrite !count_acquired_app, count_released_app, Ha, Hr, Hs.
    destruct Hstage; repeat split; try reflexivity;
      rewrite in_app_iff; simpl; intuition discriminate.
  - rewrite (load_from_path_decode_failed w p E), result_pair, calls_pair.
    now repeat split.
Qed.

(** ** scrcpy_icon_load *)

Lemma scrcpy_icon_load_no_path (w : world) :
  result (get_icon_path w) = None ->
  scrcpy_icon_load w = (None, calls (get_icon_path w)).
Proof.
  unfold scrcpy_icon_load, bind, result, calls.
  destruct (get_icon_path w) as [[p|] t]; simpl; intros H.
  - discriminate H.
  - now rewrite app_nil_r.
Qed.

Lemma scrcpy_icon_load_path (w : world) (p : string) :
  result (get_icon_path w) = Some p ->
  scrcpy_icon_load w
  = (result (load_from_path w p),
     calls (get_icon_path w) ++ calls (load_from_path w p) ++ [E_free true]).
Proof.
  unfold scrcpy_icon_load, bind, result, calls, free.
  destruct (get_icon_path w) as [[p'|] t]; simpl; intros H;
    [|discriminate H].
  inversion H; subst p'.
  destruct (load_from_path w p) as [icon t']; reflexivity.
Qed.

Lemma scrcpy_icon_load_held (w : world) :
  held_after (calls (scrcpy_icon_load w)) []
  = Some (match result (scrcpy_icon_load w) with
          | Some _ => [R_surface; R_frame]
          | None => []
          end).
Proof.
  pose proof (get_icon_path_held w) as Hp.
  destruct (result (get_icon_path w)) as [p|] eqn:E.
  - rewrite (scrcpy_icon_load_path w E), result_pair, calls_pair.
    rewrite held_after_app, Hp, held_after_app.
    pose proof (load_from_path_held w p) as Hl.
    apply (held_after_frame _ _ [R_path_string]) in Hl. simpl in Hl.
    rewrite Hl. now destruct (result (load_from_path w p)).
  - rewrite (scrcpy_icon_load_no_path w E), result_pair, calls_pair.
    exact Hp.
Qed.

Lemma load_from_path_surface (w : world) (p : string) (icon : SDL_Surface) :
  result (load_from_path w p) = Some icon ->
  exists f d,
    result (decode_image (w_file w p) p) = Some f
    /\ w_av_pix_fmt_desc_get w (frame_format f) = Some d
    /\ is_packed_rgb d = true
    /\ mapped (frame_format f) = true
    /\ w_SDL_CreateRGBSurfaceWithFormatFrom w = true
    /\ icon = surface_over w f d.
Proof.
  destruct (result (decode_image (w_file w p) p)) as [f|] eqn:E.
  - destruct (load_from_path_stage w p E) as (r & t & Hrun & Hstage).
    rewrite Hrun, result_pair. intros Hr.
    destruct Hstage; try discriminate Hr.
    inversion Hr. exists f, d. now repeat split.
  - rewrite (load_from_path_decode_failed w p E), result_pair.
    intros Hr; discriminate Hr.
Qed.

Lemma scrcpy_icon_load_surface (w : world) (icon : SDL_Surface) :
  result (scrcpy_icon_load w) = Some icon ->
  exists p,
    result (get_icon_path w) = Some p
    /\ result (load_from_path w p) = Some icon.
Proof.
  destruct (result (get_icon_path w)) as [p|] eqn:E.
  - rewrite (scrcpy_icon_load_path w E), result_pair. intros H.
    now exists p.
  - rewrite (scrcpy_icon_load_no_path w E), result_pair.
    intros H; discriminate H.
Qed.

Lemma scrcpy_icon_load_counts (w : world) :
  count_acquired R_surface (calls (scrcpy_icon_load w))
  = (if is_nonnull (result (scrcpy_icon_load w)) then 1 else 0)%nat
  /\ ~ In E_assert_failed (calls (scrcpy_icon_load w)).
Proof.
  destruct (get_icon_path_counts w) as (_ & _ & Hs & Hassert).
  destruct (result (get_icon_path w)) as [p|] eqn:E.
  - destruct (load_from_path_counts w p) as (_ & _ & Hs' & Hassert').
    rewrite (scrcpy_icon_load_path w E), result_pair, calls_pair.
    rewrite !count_acquired_app, Hs, Hs'. split.
    + simpl. now rewrite Nat.add_0_r.
    + rewrite !in_app_iff. simpl. intuition discriminate.
  - rewrite (scrcpy_icon_load_no_path w E), result_pair, calls_pair.
    now split.
Qed.

(** ** The claims *)

(** C5.  Every call of [scrcpy_icon_load] returns: no run ends in a failed
    assertion.  It returns either a surface, which is then complete (built
    over the frame that was decoded from the resolved path, with the mapped
    format and the frame attached, surface and frame both held), or NULL, and
    then no surface was created at any point of the run and nothing is left
    held. *)
Theorem scrcpy_icon_load_surface_or_absent (w : world) :
  ~ In E_assert_failed (calls (scrcpy_icon_load w))
  /\ match result (scrcpy_icon_load w) with
     | Some icon =>
         (exists p f d,
            result (get_icon_path w) = Some p
            /\ result (decode_image (w_file w p) p) = Some f
            /\ w_av_pix_fmt_desc_get w (frame_format f) = Some d
            /\ icon = surface_over w f d
            /\ surf_format icon <> SDL_PIXELFORMAT_UNKNOWN)
         /\ count_acquired R_surface (calls (scrcpy_icon_load w)) = 1%nat
         /\ held_after (calls (scrcpy_icon_load w)) []
            = Some [R_surface; R_frame]
     | None =>
         count_acquired R_surface (calls (scrcpy_icon_load w)) = 0%nat
         /\ held_after (calls (scrcpy_icon_load w)) [] = Some []
     end.
Proof.
  destruct (scrcpy_icon_load_counts w) as [Hs Hassert].
  pose proof (scrcpy_icon_load_held w) as Hheld.
  split; [exact Hassert|].
  destruct (result (scrcpy_icon_load w)) as [icon|] eqn:E.
  - split; [|split; assumption].
    destruct (scrcpy_icon_load_surface w E) as (p & Hp & Hl).
    destruct (load_from_path_surface w p Hl)
      as (f & d & Hf & Hd & _ & Hm & _ & Hicon).
    exists p, f, d. repeat split; try assumption.
    subst icon. simpl. now apply mapped_spec.
  - split; assumption.
Qed.

(** C8.  [get_icon_path] returns the value of SCRCPY_ICON_PATH when the
    variable is set (NULL when the copy cannot be allocated); otherwise, in
    an installed build, the path under PREFIX (NULL when the copy cannot be
    allocated) and, in a portable build, what [get_local_file_path] finds
    for icon.png.  It returns NULL exactly when no path was found or the
    memory for the path could not be allocated. *)
Theorem get_icon_path_priority (w : world) :
  result (get_icon_path w)
  = match w_getenv w "SCRCPY_ICON_PATH" with
    | Some v => if w_alloc_string w then Some v else None
    | None =>
        if PORTABLE (w_config w)
        then w_get_local_file_path w SCRCPY_PORTABLE_ICON_FILENAME
        else if w_alloc_string w
             then Some (SCRCPY_DEFAULT_ICON_PATH (w_config w))
             else None
    end
  /\ (result (get_icon_path w) = None <->
      (w_getenv w "SCRCPY_ICON_PATH" = None
       /\ PORTABLE (w_config w) = true
       /\ w_get_local_file_path w SCRCPY_PORTABLE_ICON_FILENAME = None)
      \/ ((w_getenv w "SCRCPY_ICON_PATH" <> None
           \/ PORTABLE (w_config w) = false)
          /\ w_alloc_string w = false)).
Proof.
  run_get_icon_path w; (split; [reflexivity|]); intuition congruence.
Qed.

(** C7, on the code.  The test for an attached frame is an [assert]: in a
    build with [NDEBUG] it is compiled out, and [scrcpy_icon_destroy] on a
    surface without attached frame calls [av_frame_free] on NULL, frees the
    surface and returns, with no assertion failure. *)
Lemma bare_surface_destroyed_without_assertion :
  surf_userdata bare_surface = None
  /\ scrcpy_icon_destroy release_build bare_surface
     = (Returned, [E_av_frame_free false; E_SDL_FreeSurface])
  /\ ~ In E_assert_failed
         (calls (scrcpy_icon_destroy release_build bare_surface)).
Proof.
  repeat split. simpl. intuition discriminate.
Qed.

(** C7, amended.  On a surface that [scrcpy_icon_load] returned,
    [scrcpy_icon_destroy] frees the attached frame and then the surface,
    each once, and returns, in every build; after it nothing of the load is
    held any more.  On a surface without attached frame it stops in the
    failed assertion, before any release, when assertions are enabled
    ([NDEBUG] not defined); when they are compiled out it calls
    [av_frame_free] on NULL, frees the surface and returns. *)
Theorem scrcpy_icon_destroy_releases (w : world) (c : config)
    (icon : SDL_Surface) :
  result (scrcpy_icon_load w) = Some icon ->
  scrcpy_icon_destroy c icon
  = (Returned, [E_av_frame_free true; E_SDL_FreeSurface])
  /\ releases (calls (scrcpy_icon_destroy c icon)) = [R_frame; R_surface]
  /\ held_after (calls (scrcpy_icon_load w)
                 ++ calls (scrcpy_icon_destroy c icon)) [] = Some []
  /\ (forall bare : SDL_Surface,
        surf_userdata bare = None ->
        (NDEBUG c = false ->
         scrcpy_icon_destroy c bare = (Aborted, [E_assert_failed])
         /\ releases (calls (scrcpy_icon_destroy c bare)) = [])
        /\ (NDEBUG c = true ->
            scrcpy_icon_destroy c bare
            = (Returned, [E_av_frame_free false; E_SDL_FreeSurface])
            /\ releases (calls (scrcpy_icon_destroy c bare)) = [R_surface])).
Proof.
  intros Hload.
  pose proof (scrcpy_icon_load_held w) as Hheld. rewrite Hload in Hheld.
  destruct (scrcpy_icon_load_surface w Hload) as (p & _ & Hl).
  destruct (load_from_path_surface w p Hl) as (f & d & _ & _ & _ & _ & _ & ->).
  assert (E : scrcpy_icon_destroy c (surface_over w f d)
              = (Returned, [E_av_frame_free true; E_SDL_FreeSurface])).
  { unfold scrcpy_icon_destroy, assert_passes. simpl.
    now rewrite orb_true_r. }
  split; [exact E|]. split; [now rewrite E|].
  split; [rewrite held_after_app, Hheld, E; reflexivity|].
  intros bare Hbare.
  unfold scrcpy_icon_destroy, assert_passes. rewrite Hbare.
  split; intros Hn; rewrite Hn; now split.
Qed.

Lemma scrcpy_icon_destroy_releases_witness :
  let w := sample_world rgba_frame (Some rgba_desc) true in
  let icon := surface_over w rgba_frame rgba_desc in
  result (scrcpy_icon_load w) = Some icon
  /\ scrcpy_icon_destroy release_build icon
     = (Returned, [E_av_frame_free true; E_SDL_FreeSurface])
  /\ held_after (calls (scrcpy_icon_load w)
                 ++ calls (scrcpy_icon_destroy release_build icon)) []
     = Some []
  /\ scrcpy_icon_destroy unix_build bare_surface
     = (Aborted, [E_assert_failed]).
Proof.
  intros w icon.
  assert (Hload : result (scrcpy_icon_load w) = Some icon) by reflexivity.
  split; [exact Hload|].
  destruct (scrcpy_icon_destroy_releases w release_build Hload)
    as (H1 & _ & H3 & _).
  split; [exact H1|]. split; [exact H3|].
  destruct (scrcpy_icon_destroy_releases w unix_build Hload)
    as (_ & _ & _ & Hbare).
  destruct (Hbare bare_surface eq_refl) as [Hdebug _].
  destruct (Hdebug eq_refl) as [Habort _]. exact Habort.
Defined.

(** C9.  A surface returned by [scrcpy_icon_load] has in [userdata] the
    frame that [decode_image] delivered for the resolved path, and its
    pixels are the first plane of that frame; so the assertion of
    [scrcpy_icon_destroy] holds on it and the call returns, in every
    build. *)
Theorem loaded_surface_owns_frame (w : world) (c : config)
    (icon : SDL_Surface) :
  result (scrcpy_icon_load w) = Some icon ->
  exists p f,
    result (get_icon_path w) = Some p
    /\ result (decode_image (w_file w p) p) = Some f
    /\ surf_userdata icon = Some f
    /\ surf_pixels icon = frame_data0 f
    /\ is_nonnull (surf_userdata icon) = true
    /\ result (scrcpy_icon_destroy c icon) = Returned
    /\ ~ In E_assert_failed (calls (scrcpy_icon_destroy c icon)).
Proof.
  intros Hload.
  destruct (scrcpy_icon_load_surface w Hload) as (p & Hp & Hl).
  destruct (load_from_path_surface w p Hl) as (f & d & Hf & _ & _ & _ & _ & ->).
  assert (E : scrcpy_icon_destroy c (surface_over w f d)
              = (Returned, [E_av_frame_free true; E_SDL_FreeSurface])).
  { unfold scrcpy_icon_destroy, assert_passes. simpl.
    now rewrite orb_true_r. }
  exists p, f. rewrite E. repeat split; try assumption.
  simpl. intuition discriminate.
Qed.

Lemma loaded_surface_owns_frame_witness :
  let w := sample_world rgba_frame (Some rgba_desc) true in
  let icon := surface_over w rgba_frame rgba_desc in
  result (scrcpy_icon_load w) = Some icon
  /\ exists p f,
       result (get_icon_path w) = Some p
       /\ result (decode_image (w_file w p) p) = Some f
       /\ surf_userdata icon = Some f
       /\ surf_pixels icon = frame_data0 f
       /\ is_nonnull (surf_userdata icon) = true
       /\ result (scrcpy_icon_destroy unix_build icon) = Returned
       /\ ~ In E_assert_failed (calls (scrcpy_icon_destroy unix_build icon)).
Proof.
  intros w icon.
  assert (Hload : result (scrcpy_icon_load w) = Some icon) by reflexivity.
  split; [exact Hload | exact (loaded_surface_owns_frame w unix_build Hload)].
Defined.

(** C10.  When [get_icon_path] returned a path, [scrcpy_icon_load] ends with
    [free(icon_path)] whatever [load_from_path] returned, and returns what
    [load_from_path] returned: the path string is allocated once, freed once,
    and is not among what is held after the call. *)
Theorem scrcpy_icon_load_frees_path (w : world) (p : string) :
  result (get_icon_path w) = Some p ->
  calls (scrcpy_icon_load w)
  = calls (get_icon_path w) ++ calls (load_from_path w p) ++ [E_free true]
  /\ result (scrcpy_icon_load w) = result (load_from_path w p)
  /\ count_acquired R_path_string (calls (scrcpy_icon_load w)) = 1%nat
  /\ count_released R_path_string (calls (scrcpy_icon_load w)) = 1%nat
  /\ exists held,
       held_after (calls (scrcpy_icon_load w)) [] = Some held
       /\ ~ In R_path_string held.
Proof.
  intros Hp.
  pose proof (scrcpy_icon_load_held w) as Hheld.
  destruct (get_icon_path_counts w) as (Ha & Hr & _ & _).
  destruct (load_from_path_counts w p) as (Ha' & Hr' & _ & _).
  rewrite Hp in Ha. simpl in Ha.
  rewrite (scrcpy_icon_load_path w Hp) in *.
  rewrite result_pair, calls_pair in *.
  repeat split.
  - now rewrite !count_acquired_app, Ha, Ha'.
  - now rewrite !count_released_app, Hr, Hr'.
  - eexists. split; [exact Hheld|].
    destruct (result (load_from_path w p)); simpl; intuition discriminate.
Qed.

Lemma scrcpy_icon_load_frees_path_witness :
  let w := sample_world rgba_frame (Some yuv420p_desc) true in
  result (get_icon_path w) = Some installed_icon
  /\ result (scrcpy_icon_load w) = None
  /\ count_acquired R_path_string (calls (scrcpy_icon_load w)) = 1%nat
  /\ count_released R_path_string (calls (scrcpy_icon_load w)) = 1%nat.
Proof.
  intros w.
  assert (Hp : result (get_icon_path w) = Some installed_icon)
    by reflexivity.
  split; [exact Hp|].
  destruct (scrcpy_icon_load_frees_path w Hp) as (_ & Hres & Ha & Hr & _).
  split; [rewrite Hres; reflexivity | split; [exact Ha | exact Hr]].
Defined.

(** C1, on the code.  The surface can still be refused by SDL: here the
    file decodes to a packed RGBA frame, RGBA is in the table, and
    [scrcpy_icon_load] returns NULL because
    [SDL_CreateRGBSurfaceWithFormatFrom] did. *)
Lemma load_packed_rgb_needs_sdl :
  let w := sample_world rgba_frame (Some rgba_desc) false in
  result (get_icon_path w) = Some installed_icon
  /\ result (decode_image (w_file w installed_icon) installed_icon)
     = Some rgba_frame
  /\ w_av_pix_fmt_desc_get w (frame_format rgba_frame) = Some rgba_desc
  /\ has_rgb_flag rgba_desc = true
  /\ has_planar_flag rgba_desc = false
  /\ mapped (frame_format rgba_frame) = true
  /\ result (scrcpy_icon_load w) = None.
Proof. repeat split. Qed.

(** C1, amended.  When the resolved file decodes to a frame whose format is
    packed RGB and in the mapping table, and SDL creates the surface,
    [scrcpy_icon_load] returns a surface with the width and the height of
    the frame and the format that [to_sdl_pixel_format] gives for the format
    of the frame. *)
Theorem load_packed_rgb_surface (w : world) (p : string) (f : AVFrame)
    (d : AVPixFmtDescriptor) :
  result (get_icon_path w) = Some p ->
  result (decode_image (w_file w p) p) = Some f ->
  w_av_pix_fmt_desc_get w (frame_format f) = Some d ->
  has_rgb_flag d = true ->
  has_planar_flag d = false ->
  mapped (frame_format f) = true ->
  w_SDL_CreateRGBSurfaceWithFormatFrom w = true ->
  exists icon,
    result (scrcpy_icon_load w) = Some icon
    /\ surf_w icon = frame_width f
    /\ surf_h icon = frame_height f
    /\ surf_format icon = to_sdl_pixel_format (frame_format f)
    /\ surf_format icon <> SDL_PIXELFORMAT_UNKNOWN.
Proof.
  intros Hp Hf Hd Hrgb Hplanar Hm Hsdl.
  rewrite (scrcpy_icon_load_path w Hp), result_pair.
  destruct (load_from_path_stage w p Hf) as (r & t & Hrun & Hstage).
  rewrite Hrun, result_pair.
  assert (Hpacked : is_packed_rgb d = true)
    by (rewrite is_packed_rgb_flags, Hrgb, Hplanar; reflexivity).
  destruct Hstage; try congruence.
  exists (surface_over w f d0). repeat split. simpl. now apply mapped_spec.
Qed.

Lemma load_packed_rgb_surface_witness :
  let w := sample_world rgba_frame (Some rgba_desc) true in
  exists icon,
    result (scrcpy_icon_load w) = Some icon
    /\ surf_w icon = 256
    /\ surf_h icon = 256
    /\ surf_format icon = SDL_PIXELFORMAT_RGBA32
    /\ surf_format icon <> SDL_PIXELFORMAT_UNKNOWN.
Proof.
  intros w.
  exact (@load_packed_rgb_surface w installed_icon rgba_frame rgba_desc
           eq_refl eq_refl eq_refl eq_refl eq_refl eq_refl eq_refl).
Defined.

(** C2, on the code.  There is a third refusal that depends on the format
    alone: a decoded frame for whose format [av_pix_fmt_desc_get] has no
    descriptor is refused on the first branch of [load_from_path], with a
    message of its own; it is neither an unsupported layout nor an unmapped
    format. *)
Lemma format_without_descriptor_refused :
  let w := sample_world rgba_frame None true in
  result (decode_image (w_file w installed_icon) installed_icon)
  = Some rgba_frame
  /\ load_from_path w installed_icon
     = (None,
        calls (decode_image (w_file w installed_icon) installed_icon)
        ++ [E_av_pix_fmt_desc_get AV_PIX_FMT_RGBA false;
            E_LOGE "Could not get icon format descriptor";
            E_av_frame_free true])
  /\ ~ unsupported_layout w rgba_frame
  /\ ~ unmapped_format w rgba_frame.
Proof.
  repeat split.
  - intros (d & Hd & _). discriminate Hd.
  - intros (d & Hd & _). discriminate Hd.
Qed.

(** C2, amended.  After a successful decode, [load_from_path] refuses the
    frame on three branches that depend on its format, each with its own
    message: the format has no descriptor; the descriptor lacks the RGB
    flag or has the planar flag (unsupported layout); the format is packed
    RGB and has no case in [to_sdl_pixel_format] (unmapped format).  No two
    of the three conditions hold together, and apart from a refusal by
    [SDL_CreateRGBSurfaceWithFormatFrom] they are the only ways in which
    the frame is refused. *)
Theorem format_rejections (w : world) (p : string) (f : AVFrame) :
  result (decode_image (w_file w p) p) = Some f ->
  let decoded := calls (decode_image (w_file w p) p) in
  (no_descriptor w f ->
   load_from_path w p
   = (None, decoded ++ [E_av_pix_fmt_desc_get (frame_format f) false;
                        E_LOGE "Could not get icon format descriptor";
                        E_av_frame_free true]))
  /\ (unsupported_layout w f ->
      load_from_path w p
      = (None, decoded ++ [E_av_pix_fmt_desc_get (frame_format f) true;
                           E_LOGE "Could not load non-RGB icon";
                           E_av_frame_free true]))
  /\ (unmapped_format w f ->
      load_from_path w p
      = (None, decoded ++ [E_av_pix_fmt_desc_get (frame_format f) true;
                           E_LOGE "Unsupported icon pixel format: %s (%d)";
                           E_av_frame_free true]))
  /\ ~ (no_descriptor w f /\ unsupported_layout w f)
  /\ ~ (no_descriptor w f /\ unmapped_format w f)
  /\ ~ (unsupported_layout w f /\ unmapped_format w f)
  /\ (result (load_from_path w p) = None <->
      no_descriptor w f \/ unsupported_layout w f \/ unmapped_format w f
      \/ w_SDL_CreateRGBSurfaceWithFormatFrom w = false).
Proof.
  intros Hf decoded.
  destruct (load_from_path_stage w p Hf) as (r & t & Hrun & Hstage).
  fold decoded in Hrun. rewrite Hrun, result_pair.
  unfold no_descriptor, unsupported_layout, unmapped_format.
  assert (Hflags : forall d, is_packed_rgb d = false <->
                     has_rgb_flag d = false \/ has_planar_flag d = true).
  { intros d. rewrite is_packed_rgb_flags.
    destruct (has_rgb_flag d), (has_planar_flag d); simpl; intuition congruence. }
  assert (Hflags' : forall d, is_packed_rgb d = true <->
                      has_rgb_flag d = true /\ has_planar_flag d = false).
  { intros d. rewrite is_packed_rgb_flags.
    destruct (has_rgb_flag d), (has_planar_flag d); simpl; intuition congruence. }
  repeat split.
  - intros Hnone. destruct Hstage; congruence.
  - intros (d & Hd & Hl). apply Hflags in Hl.
    destruct Hstage; congruence.
  - intros (d & Hd & Hrgb & Hpl & Hm).
    assert (is_packed_rgb d = true) by (apply Hflags'; now split).
    destruct Hstage; congruence.
  - intros (Hnone & d & Hd & _). congruence.
  - intros (Hnone & d & Hd & _). congruence.
  - intros ((d & Hd & Hl) & (d' & Hd' & Hrgb & Hpl & _)).
    assert (d' = d) by congruence. subst d'.
    destruct Hl; congruence.
  - intros Hr. destruct Hstage; try discriminate Hr.
    + now left.
    + right; left. exists d. split; [assumption | now apply Hflags].
    + right; right; left. exists d.
      apply Hflags' in H0. destruct H0. now repeat split.
    + now repeat right.
  - intros Hcases. destruct Hstage; try reflexivity.
    exfalso.
    destruct Hcases as [Hn | [(d' & Hd' & Hl) | [(d' & Hd' & _ & _ & Hm) | Hs]]].
    + congruence.
    + assert (d' = d) by congruence. subst d'.
      apply Hflags in Hl. congruence.
    + congruence.
    + congruence.
Qed.

Lemma format_rejections_witness :
  let w := sample_world rgba_frame (Some yuv420p_desc) true in
  result (decode_image (w_file w installed_icon) installed_icon)
  = Some rgba_frame
  /\ unsupported_layout w rgba_frame
  /\ ~ unmapped_format w rgba_frame
  /\ result (load_from_path w installed_icon) = None.
Proof.
  intros w.
  assert (Hf : result (decode_image (w_file w installed_icon) installed_icon)
               = Some rgba_frame) by reflexivity.
  assert (Hl : unsupported_layout w rgba_frame).
  { exists yuv420p_desc. split; [reflexivity | left; reflexivity]. }
  destruct (format_rejections w installed_icon Hf)
    as (_ & _ & _ & _ & _ & Hdisjoint & Hiff).
  split; [exact Hf|]. split; [exact Hl|]. split.
  - intros Hu. exact (Hdisjoint (conj Hl Hu)).
  - apply Hiff. right; left. exact Hl.
Defined.




(** C4, on the code.  When the failure is in [load_from_path], after a
    successful decode, the frame is freed last: [decode_image] has already
    closed and freed the decoder context and the container handle.  Here
    the decoded format is planar; the releases are not the acquisitions in
    reverse. *)
Lemma late_failure_frees_frame_last :
  let w := sample_world rgba_frame (Some yuv420p_desc) true in
  let t := calls (load_from_path w installed_icon) in
  result (load_from_path w installed_icon) = None
  /\ acquisitions t
     = [R_format_context; R_input; R_codec_context; R_codec; R_frame;
        R_packet]
  /\ releases t
     = [R_packet; R_codec; R_codec_context; R_input; R_format_context;
        R_frame]
  /\ releases t <> rev (acquisitions t).
Proof. repeat split. discriminate. Qed.

(** C4, amended.  After every failing run of [load_from_path] nothing is
    held and nothing was released that was not held.  The acquisitions
    follow the order container handle, input, decoder context, codec,
    frame, packet.  When the failure is in [decode_image], the releases are
    exactly the acquisitions, in reverse order.  When it comes after a
    successful decode, [decode_image] has released the packet, the codec,
    the decoder context, the input and the container handle, in that order,
    and the frame is released last. *)
Theorem failure_releases_all (w : world) (p : string) :
  result (load_from_path w p) = None ->
  let t := calls (load_from_path w p) in
  held_after t [] = Some []
  /\ (exists n, acquisitions t = firstn n acquisition_order)
  /\ match result (decode_image (w_file w p) p) with
     | None =>
         t = calls (decode_image (w_file w p) p)
         /\ releases t = rev (acquisitions t)
     | Some _ =>
         acquisitions t = acquisition_order
         /\ releases t
            = [R_packet; R_codec; R_codec_context; R_input;
               R_format_context; R_frame]
     end.
Proof.
  intros Hfail t.
  pose proof (load_from_path_held w p) as Hheld. rewrite Hfail in Hheld.
  split; [exact Hheld|]. subst t.
  destruct (result (decode_image (w_file w p) p)) as [f|] eqn:E.
  - destruct (decode_image_success_trace _ _ E) as (_ & Hacq & Hrel).
    destruct (load_from_path_stage w p E) as (r & t & Hrun & Hstage).
    rewrite Hrun, result_pair in Hfail. subst r.
    rewrite Hrun, calls_pair, acquisitions_app, releases_app, Hacq, Hrel.
    destruct (surface_stage_held Hstage) as (_ & Ha & Hr & _).
    rewrite Ha, Hr. simpl. split; [|split; reflexivity].
    now exists 6%nat.
  - rewrite (load_from_path_decode_failed w p E), calls_pair.
    split; [apply decode_image_acquisition_order|].
    split; [reflexivity|].
    now apply decode_image_failure_reverse.
Qed.

Lemma failure_releases_all_witness :
  let w := sample_world rgba_frame (Some rgba_desc) true in
  let broken (_ : string) := with_statuses (decoding rgba_frame) 0 (-11) in
  let w' :=
    {| w_config := w_config w; w_getenv := w_getenv w;
       w_alloc_string := w_alloc_string w;
       w_get_local_file_path := w_get_local_file_path w;
       w_file := broken;
       w_av_pix_fmt_desc_get := w_av_pix_fmt_desc_get w;
       w_av_get_bits_per_pixel := w_av_get_bits_per_pixel w;
       w_SDL_CreateRGBSurfaceWithFormatFrom := true |} in
  result (load_from_path w' installed_icon) = None
  /\ held_after (calls (load_from_path w' installed_icon)) [] = Some []
  /\ releases (calls (load_from_path w' installed_icon))
     = [R_packet; R_frame; R_codec; R_codec_context; R_input;
        R_format_context].
Proof.
  intros w broken w'.
  assert (Hfail : result (load_from_path w' installed_icon) = None)
    by reflexivity.
  split; [exact Hfail|].
  destruct (failure_releases_all w' installed_icon Hfail)
    as (Hheld & _ & Hrel).
  split; [exact Hheld|].
  simpl in Hrel. destruct Hrel as [_ Hrel]. exact Hrel.
Defined.

(** C6.  In a run of [decode_image] in which the packet was allocated, the
    packet is released exactly once; when it was submitted to the decoder,
    that release comes after the submission, whatever the statuses of the
    submit and of the request.  When such a run fails, it ends with the
    release of the packet, the release of the frame and the teardown of the
    decoder and of the container, the frame being released exactly once;
    when it succeeds, the frame is not released. *)
Theorem packet_released_once (o : decoder_oracle) (path : string) :
  In (E_av_packet_alloc true) (calls (decode_image o path)) ->
  let t := calls (decode_image o path) in
  count_released R_packet t = 1%nat
  /\ (forall s : Z,
        In (E_avcodec_send_packet s) t ->
        count_released R_packet (calls_after is_send_packet t) = 1%nat)
  /\ (result (decode_image o path) = None ->
      count_released R_frame t = 1%nat
      /\ ends_with t ([E_av_packet_free true; E_av_frame_free true]
                      ++ teardown))
  /\ (result (decode_image o path) <> None ->
      count_released R_frame t = 0%nat
      /\ ends_with t (E_av_packet_free true :: teardown)).
Proof.
  run_decode o; intros Hin; simpl in Hin;
    repeat match goal with
           | H : _ \/ _ |- _ => destruct H
           | H : False |- _ => contradiction H
           | H : _ = E_av_packet_alloc _ |- _ => discriminate H
           end;
    (split; [reflexivity|]);
    (split; [intros s Hs; simpl in Hs;
             repeat match goal with
                    | H : _ \/ _ |- _ => destruct H
                    | H : False |- _ => contradiction H
                    | H : _ = E_avcodec_send_packet _ |- _ =>
                        first [discriminate H | clear H]
                    end; reflexivity|]);
    split; intros Hres; try discriminate Hres;
    try (exfalso; apply Hres; reflexivity);
    (split; [reflexivity|]);
    match goal with
    | |- ends_with ?t ?suffix =>
        exists (firstn (List.length t - List.length suffix) t);
        reflexivity
    end.
Qed.

Lemma packet_released_once_witness :
  let o := with_statuses (decoding rgba_frame) 0 (-11) in
  let t := calls (decode_image o installed_icon) in
  In (E_av_packet_alloc true) t
  /\ result (decode_image o installed_icon) = None
  /\ count_released R_packet t = 1%nat
  /\ count_released R_packet (calls_after is_send_packet t) = 1%nat
  /\ count_released R_frame t = 1%nat.
Proof.
  intros o t.
  assert (Hin : In (E_av_packet_alloc true) t) by (simpl; tauto).
  assert (Hres : result (decode_image o installed_icon) = None)
    by reflexivity.
  split; [exact Hin|]. split; [exact Hres|].
  destruct (packet_released_once o installed_icon Hin)
    as (Honce & Hafter & Hfail & _).
  split; [exact Honce|]. split.
  - apply (Hafter 0). simpl. tauto.
  - destruct (Hfail Hres) as [Hframe _]. exact Hframe.
Defined.

(** ** Further properties of the code *)

Lemma errors_app (t1 t2 : trace) : errors (t1 ++ t2) = errors t1 ++ errors t2.
Proof. unfold errors. apply flat_map_app. Qed.

Lemma decode_image_errors (o : decoder_oracle) (path : string) :
  List.length (errors (calls (decode_image o path)))
  = (if is_nonnull (result (decode_image o path)) then 0 else 1)%nat.
Proof. run_decode o; reflexivity. Qed.

Lemma get_icon_path_errors (w : world) :
  List.length (errors (calls (get_icon_path w)))
  = (if is_nonnull (result (get_icon_path w)) then 0 else 1)%nat.
Proof. run_get_icon_path w; reflexivity. Qed.

Lemma surface_stage_errors (w : world) (f : AVFrame)
    (r : option SDL_Surface) (t : trace) :
  surface_stage w f r t ->
  List.length (errors t) = (if is_nonnull r then 0 else 1)%nat.
Proof. intros H; destruct H; reflexivity. Qed.

Lemma load_from_path_errors (w : world) (p : string) :
  List.length (errors (calls (load_from_path w p)))
  = (if is_nonnull (result (load_from_path w p)) then 0 else 1)%nat.
Proof.
  pose proof (decode_image_errors (w_file w p) p) as Hd.
  destruct (result (decode_image (w_file w p) p)) as [f|] eqn:E.
  - destruct (load_from_path_stage w p E) as (r & t & Hrun & Hstage).
    rewrite Hrun, result_pair, calls_pair, errors_app, length_app, Hd.
    exact (surface_stage_errors Hstage).
  - rewrite (load_from_path_decode_failed w p E), result_pair, calls_pair.
    exact Hd.
Qed.

(** X1.  [to_sdl_pixel_format] is one to one on the formats it maps: two
    formats with the same SDL format, one of them mapped, are the same
    format. *)
Theorem to_sdl_pixel_format_injective (a b : AVPixelFormat) :
  mapped a = true ->
  to_sdl_pixel_format a = to_sdl_pixel_format b ->
  a = b.
Proof.
  unfold mapped.
  destruct a; simpl; intros Hm; try discriminate Hm;
    destruct b; simpl; intros H; try discriminate H; reflexivity.
Qed.

Lemma to_sdl_pixel_format_injective_witness :
  mapped AV_PIX_FMT_RGB565BE = true
  /\ to_sdl_pixel_format AV_PIX_FMT_RGB565BE = SDL_PIXELFORMAT_RGB565
  /\ AV_PIX_FMT_RGB565BE = AV_PIX_FMT_RGB565BE.
Proof.
  split; [reflexivity|]. split; [reflexivity|].
  exact (@to_sdl_pixel_format_injective AV_PIX_FMT_RGB565BE
           AV_PIX_FMT_RGB565BE eq_refl eq_refl).
Defined.

(** X2.  [scrcpy_icon_load] logs exactly one error when it returns NULL, on
    whatever branch, and none when it returns a surface. *)
Theorem scrcpy_icon_load_logs_each_failure_once (w : world) :
  List.length (errors (calls (scrcpy_icon_load w)))
  = (if is_nonnull (result (scrcpy_icon_load w)) then 0 else 1)%nat.
Proof.
  pose proof (get_icon_path_errors w) as Hp.
  destruct (result (get_icon_path w)) as [p|] eqn:E.
  - rewrite (scrcpy_icon_load_path w E), result_pair, calls_pair.
    rewrite !errors_app, !length_app, Hp, load_from_path_errors.
    simpl. now rewrite Nat.add_0_r.
  - rewrite (scrcpy_icon_load_no_path w E), result_pair, calls_pair.
    exact Hp.
Qed.

Ltac use_statuses :=
  repeat match goal with
         | H : (_ <? 0) = true |- _ => apply Z.ltb_lt in H
         | H : (_ <? 0) = false |- _ => apply Z.ltb_ge in H
         | H : (_ =? 0) = true |- _ => apply Z.eqb_eq in H
         | H : (_ =? 0) = false |- _ => apply Z.eqb_neq in H
         end.

(** X3.  The error message of a failing [decode_image] tells how far the
    run went: two failing runs, on whatever files, that log the same
    message called the same functions in the same order. *)
Theorem decode_error_identifies_stage (o1 o2 : decoder_oracle)
    (p1 p2 : string) :
  result (decode_image o1 p1) = None ->
  result (decode_image o2 p2) = None ->
  errors (calls (decode_image o1 p1)) = errors (calls (decode_image o2 p2)) ->
  map call_name (calls (decode_image o1 p1))
  = map call_name (calls (decode_image o2 p2)).
Proof.
  destruct (decode_image o2 p2) as [r2 t2] eqn:E2.
  rewrite (result_pair r2 t2), (calls_pair r2 t2).
  run_decode o1; intros H1; try discriminate H1; clear H1;
    replace r2 with (result (decode_image o2 p2)) by (now rewrite E2);
    replace t2 with (calls (decode_image o2 p2)) by (now rewrite E2);
    clear E2 r2 t2;
    run_decode o2; intros H2 He; try discriminate H2; try discriminate He;
    reflexivity.
Qed.

Lemma decode_error_identifies_stage_witness :
  let o1 := with_statuses (decoding rgba_frame) 0 (-11) in
  let o2 := with_statuses (decoding blank_frame) 7 (-22) in
  errors (calls (decode_image o1 "a.png"))
  = ["Could not receive icon frame: %d"]
  /\ map call_name (calls (decode_image o1 "a.png"))
     = map call_name (calls (decode_image o2 "b.png")).
Proof.
  intros o1 o2. split; [reflexivity|].
  exact (@decode_error_identifies_stage o1 o2 "a.png" "b.png"
           eq_refl eq_refl eq_refl).
Defined.

(** X4.  [decode_image] closes and frees what it opened and allocated, and
    nothing else: [avcodec_close] is called exactly when [avcodec_open2]
    succeeded, [avformat_close_input] exactly when [avformat_open_input]
    succeeded, [avcodec_free_context] exactly when the codec context was
    allocated; [av_frame_free], [av_packet_free], [avcodec_free_context] and
    [avformat_close_input] never receive NULL, and [avformat_free_context]
    never receives a context that is still allocated. *)
Theorem decode_image_closes_what_it_opened (o : decoder_oracle)
    (path : string) :
  let t := calls (decode_image o path) in
  (In E_avcodec_close t <-> exists r, In (E_avcodec_open2 r) t /\ 0 <= r)
  /\ (In (E_avformat_close_input true) t <->
      exists r, In (E_avformat_open_input true path r) t /\ 0 <= r)
  /\ (In (E_avcodec_free_context true) t <->
      In (E_avcodec_alloc_context3 true) t)
  /\ ~ In (E_av_frame_free false) t
  /\ ~ In (E_av_packet_free false) t
  /\ ~ In (E_avcodec_free_context false) t
  /\ ~ In (E_avformat_close_input false) t
  /\ ~ In (E_avformat_free_context true) t.
Proof.
  run_decode o; use_statuses;
    repeat match goal with
           | |- _ /\ _ => split
           | |- _ <-> _ => split
           | |- ~ _ => intros Hin; simpl in Hin; intuition discriminate
           end;
    try (intros Hin; simpl in Hin;
         repeat match goal with
                | H : exists _, _ |- _ => destruct H
                | H : _ /\ _ |- _ => destruct H
                | H : _ \/ _ |- _ => destruct H
                | H : False |- _ => contradiction H
                | H : _ = _ :> event |- _ =>
                    first [discriminate H | inversion H; clear H; subst]
                end;
         try lia;
         first [ simpl; tauto
               | eexists; split; [simpl; eauto 25 | lia] ]).
Qed.

(** X5.  [decode_image] returns a frame exactly when every step succeeded
    (allocations not NULL, statuses not negative, request status 0), and
    the frame is then the one the decoder delivered. *)
Theorem decode_image_succeeds_iff (o : decoder_oracle) (path : string)
    (f : AVFrame) :
  result (decode_image o path) = Some f
  <-> all_steps_succeed o /\ f = o_decoded o.
Proof.
  unfold all_steps_succeed.
  run_decode o; use_statuses; split;
    try (intros H; discriminate H);
    try (intros H; inversion H; subst; repeat split; (reflexivity || lia));
    intros (H & Hf); decompose [and] H; subst;
    try discriminate; try lia; reflexivity.
Qed.

Lemma decode_image_open_input (o : decoder_oracle) (path : string)
    (nonnull : bool) (q : string) (r : Z) :
  In (E_avformat_open_input nonnull q r) (calls (decode_image o path)) ->
  q = path /\ nonnull = true.
Proof.
  run_decode o; intros Hin; simpl in Hin;
    repeat match goal with
           | H : _ \/ _ |- _ => destruct H
           | H : False |- _ => contradiction H
           | H : _ = _ :> event |- _ =>
               first [discriminate H | inversion H; clear H; subst]
           end; now split.
Qed.

Lemma decode_image_no_surface_call (o : decoder_oracle) (path : string)
    (ok : bool) :
  ~ In (E_SDL_CreateRGBSurfaceWithFormatFrom ok) (calls (decode_image o path)).
Proof. run_decode o; simpl; intuition discriminate. Qed.

(** X6.  The only file that [scrcpy_icon_load] opens is the one at the path
    that [get_icon_path] returned, and it opens it in a context that was
    allocated. *)
Theorem scrcpy_icon_load_opens_resolved_path (w : world) (p : string)
    (nonnull : bool) (q : string) (r : Z) :
  result (get_icon_path w) = Some p ->
  In (E_avformat_open_input nonnull q r) (calls (scrcpy_icon_load w)) ->
  q = p /\ nonnull = true.
Proof.
  intros Hp. rewrite (scrcpy_icon_load_path w Hp), calls_pair.
  rewrite !in_app_iff. intros [Hin | [Hin | Hin]].
  - exfalso. revert Hin. clear Hp.
    run_get_icon_path w; simpl; intuition discriminate.
  - destruct (result (decode_image (w_file w p) p)) as [f|] eqn:E.
    + destruct (load_from_path_stage w p E) as (res & t & Hrun & Hstage).
      rewrite Hrun, calls_pair, in_app_iff in Hin. destruct Hin as [Hin|Hin].
      * exact (decode_image_open_input _ _ _ _ _ Hin).
      * exfalso. destruct Hstage; simpl in Hin; intuition discriminate.
    + rewrite (load_from_path_decode_failed w p E), calls_pair in Hin.
      exact (decode_image_open_input _ _ _ _ _ Hin).
  - exfalso. simpl in Hin. intuition discriminate.
Qed.

Lemma scrcpy_icon_load_opens_resolved_path_witness :
  let w := sample_world rgba_frame (Some rgba_desc) true in
  result (get_icon_path w) = Some installed_icon
  /\ In (E_avformat_open_input true installed_icon 0)
        (calls (scrcpy_icon_load w))
  /\ installed_icon = installed_icon /\ true = true.
Proof.
  intros w.
  assert (Hp : result (get_icon_path w) = Some installed_icon)
    by reflexivity.
  assert (Hin : In (E_avformat_open_input true installed_icon 0)
                  (calls (scrcpy_icon_load w))) by (simpl; tauto).
  split; [exact Hp|]. split; [exact Hin|].
  exact (@scrcpy_icon_load_opens_resolved_path w installed_icon true
           installed_icon 0 Hp Hin).
Defined.

(** X7.  The test of [load_from_path] looks at the RGB and PLANAR flags
    only: setting any other flag of the descriptor (big endian, alpha, ...)
    does not change whether the format counts as packed RGB. *)
Theorem is_packed_rgb_other_flags (d : AVPixFmtDescriptor) (bit : Z) :
  0 <= bit -> bit <> 4 -> bit <> 5 ->
  is_packed_rgb (with_flag d bit) = is_packed_rgb d.
Proof.
  intros Hbit H4 H5.
  assert (Hother : forall k, 0 <= k -> k <> bit ->
            Z.testbit (Z.lor (desc_flags d) (Z.shiftl 1 bit)) k
            = Z.testbit (desc_flags d) k).
  { intros k Hk Hne. rewrite Z.lor_spec, Z.shiftl_spec by assumption.
    replace (Z.testbit 1 (k - bit)) with false; [apply orb_false_r|].
    symmetry. destruct (Z.ltb_spec k bit).
    - apply Z.testbit_neg_r; lia.
    - change 1 with (2 ^ 0). apply Z.pow2_bits_false. lia. }
  rewrite !is_packed_rgb_flags. unfold has_rgb_flag, has_planar_flag.
  change (desc_flags (with_flag d bit))
    with (Z.lor (desc_flags d) (Z.shiftl 1 bit)).
  rewrite (Hother 5), (Hother 4) by lia. reflexivity.
Qed.

Lemma is_packed_rgb_other_flags_witness :
  0 <= 7 /\ is_packed_rgb (with_flag yuv420p_desc 7) = false.
Proof.
  split; [lia|].
  exact (@is_packed_rgb_other_flags yuv420p_desc 7
           ltac:(lia) ltac:(lia) ltac:(lia)).
Defined.

(** X8.  When no icon path is resolved, [scrcpy_icon_load] returns NULL
    without starting a decode: nothing is acquired, nothing is released,
    [free] is not called and no decoder context is asked for. *)
Theorem scrcpy_icon_load_without_path (w : world) :
  result (get_icon_path w) = None ->
  result (scrcpy_icon_load w) = None
  /\ acquisitions (calls (scrcpy_icon_load w)) = []
  /\ releases (calls (scrcpy_icon_load w)) = []
  /\ (forall b, ~ In (E_free b) (calls (scrcpy_icon_load w)))
  /\ (forall b, ~ In (E_avformat_alloc_context b)
                  (calls (scrcpy_icon_load w))).
Proof.
  intros Hp. rewrite (scrcpy_icon_load_no_path w Hp), result_pair, calls_pair.
  revert Hp.
  run_get_icon_path w; intros Hp; try discriminate Hp;
    repeat split; try reflexivity; intros b; simpl; intuition discriminate.
Qed.

Lemma scrcpy_icon_load_without_path_witness :
  let w := sample_world rgba_frame (Some rgba_desc) true in
  let w' :=
    {| w_config := w_config w; w_getenv := fun _ => Some "";
       w_alloc_string := false;
       w_get_local_file_path := w_get_local_file_path w;
       w_file := w_file w;
       w_av_pix_fmt_desc_get := w_av_pix_fmt_desc_get w;
       w_av_get_bits_per_pixel := w_av_get_bits_per_pixel w;
       w_SDL_CreateRGBSurfaceWithFormatFrom := true |} in
  result (get_icon_path w') = None
  /\ result (scrcpy_icon_load w') = None
  /\ acquisitions (calls (scrcpy_icon_load w')) = [].
Proof.
  intros w w'.
  assert (Hp : result (get_icon_path w') = None) by reflexivity.
  split; [exact Hp|].
  destruct (scrcpy_icon_load_without_path w' Hp) as (Hres & Hacq & _).
  split; [exact Hres | exact Hacq].
Defined.

(** X9.  [load_from_path] asks SDL for a surface only over a frame that was
    decoded and whose format passed both tests: it has a descriptor with
    the RGB flag and without the planar flag, and it is in the mapping
    table. *)
Theorem surface_only_for_accepted_format (w : world) (p : string)
    (ok : bool) :
  In (E_SDL_CreateRGBSurfaceWithFormatFrom ok) (calls (load_from_path w p)) ->
  exists f d,
    result (decode_image (w_file w p) p) = Some f
    /\ w_av_pix_fmt_desc_get w (frame_format f) = Some d
    /\ has_rgb_flag d = true
    /\ has_planar_flag d = false
    /\ mapped (frame_format f) = true
    /\ ok = w_SDL_CreateRGBSurfaceWithFormatFrom w.
Proof.
  intros Hin.
  destruct (result (decode_image (w_file w p) p)) as [f|] eqn:E.
  - destruct (load_from_path_stage w p E) as (res & t & Hrun & Hstage).
    rewrite Hrun, calls_pair, in_app_iff in Hin. destruct Hin as [Hin|Hin].
    + exfalso. exact (decode_image_no_surface_call _ _ _ Hin).
    + assert (Hflags : forall d, is_packed_rgb d = true ->
                has_rgb_flag d = true /\ has_planar_flag d = false).
      { intros d. rewrite is_packed_rgb_flags.
        destruct (has_rgb_flag d), (has_planar_flag d); simpl;
          intuition congruence. }
      destruct Hstage; simpl in Hin;
        repeat match goal with
               | H : _ \/ _ |- _ => destruct H
               | H : False |- _ => contradiction H
               | H : _ = _ :> event |- _ =>
                   first [discriminate H | inversion H; clear H; subst]
               end;
        exists f, d; destruct (Hflags d) as [Hrgb Hpl]; try assumption;
        repeat split; try assumption; congruence.
  - rewrite (load_from_path_decode_failed w p E), calls_pair in Hin.
    exfalso. exact (decode_image_no_surface_call _ _ _ Hin).
Qed.

Lemma surface_only_for_accepted_format_witness :
  let w := sample_world rgba_frame (Some rgba_desc) false in
  In (E_SDL_CreateRGBSurfaceWithFormatFrom false)
     (calls (load_from_path w installed_icon))
  /\ exists f d,
       result (decode_image (w_file w installed_icon) installed_icon)
       = Some f
       /\ w_av_pix_fmt_desc_get w (frame_format f) = Some d
       /\ has_rgb_flag d = true
       /\ has_planar_flag d = false
       /\ mapped (frame_format f) = true
       /\ false = w_SDL_CreateRGBSurfaceWithFormatFrom w.
Proof.
  intros w.
  assert (Hin : In (E_SDL_CreateRGBSurfaceWithFormatFrom false)
                  (calls (load_from_path w installed_icon)))
    by (simpl; tauto).
  split; [exact Hin|].
  exact (@surface_only_for_accepted_format w installed_icon false Hin).
Defined.
